(** * Classification and normalisation engine of the workforce collector

    A shallow embedding of the classification code of
    [federated/data_adapter.py] (tier table, [DataAdapter.classify_tier],
    [DataAdapter.normalize_gender], [CSVAdapter._map_gender],
    [CSVAdapter.fetch_employees]) and of [linkedin_collector.py]
    ([estimate_gender], [classify_title], [AggregateCount], the card loop of
    [LinkedInResearchCollector.search_company_employees]).

    Python [str] values are modelled as [string]; the characters are the
    ASCII codes, on which [lower], [upper] and [strip] act as Python's do.
    Python [dict]s are modelled as [gmap]s, Python [int]s as [Z] (counters)
    or [nat] (tier numbers), Python [float]s as binary64 primitive floats. *)

From Stdlib Require Import ZArith Ascii String List Bool Lia.
From Stdlib Require Import Uint63 PrimFloat FloatOps SpecFloat.
From stdpp Require Import base option list strings gmap.

Local Open Scope string_scope.

(* ===================================================================== *)
(** * Python string primitives *)
(* ===================================================================== *)

Module PyStr.

(** [not s] on a string: true exactly for the empty string. *)
Definition is_empty (s : string) : bool :=
  match s with
  | EmptyString => true
  | String _ _ => false
  end.

(** [c.lower()] on an ASCII code: 'A'..'Z' go to 'a'..'z'. *)
Definition lower_ascii (c : ascii) : ascii :=
  let n := N_of_ascii c in
  if (65 <=? n)%N && (n <=? 90)%N then ascii_of_N (n + 32) else c.

(** [c.upper()] on an ASCII code: 'a'..'z' go to 'A'..'Z'. *)
Definition upper_ascii (c : ascii) : ascii :=
  let n := N_of_ascii c in
  if (97 <=? n)%N && (n <=? 122)%N then ascii_of_N (n - 32) else c.

Fixpoint lower (s : string) : string :=
  match s with
  | EmptyString => EmptyString
  | String c s' => String (lower_ascii c) (lower s')
  end.

Fixpoint upper (s : string) : string :=
  match s with
  | EmptyString => EmptyString
  | String c s' => String (upper_ascii c) (upper s')
  end.

(** [c.isspace()] on an ASCII code: TAB, LF, VT, FF, CR, the four
    separators FS, GS, RS, US, and the space. *)
Definition is_space (c : ascii) : bool :=
  let n := N_of_ascii c in
  ((9 <=? n)%N && (n <=? 13)%N) || ((28 <=? n)%N && (n <=? 32)%N).

(** [s.lstrip()] *)
Fixpoint lstrip (s : string) : string :=
  match s with
  | EmptyString => EmptyString
  | String c s' => if is_space c then lstrip s' else s
  end.

(** [s.rstrip()]: a character is dropped when it is white space and
    everything after it has been dropped. *)
Fixpoint rstrip (s : string) : string :=
  match s with
  | EmptyString => EmptyString
  | String c s' =>
      let r := rstrip s' in
      if is_empty r && is_space c then EmptyString else String c r
  end.

(** [s.strip()] *)
Definition strip (s : string) : string := rstrip (lstrip s).

(** [s.startswith(p)] *)
Fixpoint startswith (p s : string) : bool :=
  match p, s with
  | EmptyString, _ => true
  | String _ _, EmptyString => false
  | String a p', String b s' => if Ascii.eqb a b then startswith p' s' else false
  end.

(** [p in s] for two strings: [p] occurs in [s] at some position. *)
Fixpoint contains (p s : string) : bool :=
  startswith p s ||
  match s with
  | EmptyString => false
  | String _ s' => contains p s'
  end.

(** [s.endswith(suf)] *)
Fixpoint endswith (suf s : string) : bool :=
  String.eqb s suf ||
  match s with
  | EmptyString => false
  | String _ s' => endswith suf s'
  end.

(** The piece of [s] before the first occurrence of [sep]:
    [s.split(sep)[0]] for a one-character separator. *)
Fixpoint before_char (sep : ascii) (s : string) : string :=
  match s with
  | EmptyString => EmptyString
  | String c s' => if Ascii.eqb c sep then EmptyString else String c (before_char sep s')
  end.

(** The characters of [s] up to the first white space. *)
Fixpoint until_space (s : string) : string :=
  match s with
  | EmptyString => EmptyString
  | String c s' => if is_space c then EmptyString else String c (until_space s')
  end.

(** [s.split()[0]] when [s.split()] is not empty: the first run of
    characters that are not white space. [None] is the [IndexError] of
    indexing the empty list. *)
Definition first_word (s : string) : option string :=
  match lstrip s with
  | EmptyString => None
  | String c r => Some (until_space (String c r))
  end.

(** [for x in l: if x in s: return ...]: does some element of [l] occur
    in [s]. *)
Definition any_in (l : list string) (s : string) : bool :=
  existsb (fun kw => contains kw s) l.

(** [v in l] for a string and a list of strings. *)
Definition mem (v : string) (l : list string) : bool :=
  existsb (String.eqb v) l.

(** The substring relation, stated without an algorithm. *)
Definition substring_of (p s : string) : Prop :=
  exists pre post, s = pre +:+ p +:+ post.

(** The suffix relation, stated without an algorithm. *)
Definition suffix_of (suf s : string) : Prop :=
  exists pre, s = pre +:+ suf.

End PyStr.

(* ===================================================================== *)
(** * federated/data_adapter.py *)
(* ===================================================================== *)

Module DataAdapter.

(** [StandardEmployee]: the anonymous record kept for aggregation. *)
Record StandardEmployee := {
  gender : string;
  tier : nat;
  is_active : bool;
  tenure_band : option string;
  department_type : option string
}.

(** [DEFAULT_TIER_KEYWORDS]: tier number to a dict with the keys
    ["keywords"] and ["grades"]. *)
Definition DEFAULT_TIER_KEYWORDS : gmap nat (gmap string (list string)) :=
  {[ 1 := {[ "keywords" := ["board"; "director"; "non-executive"; "independent director";
                            "chairman"; "chairperson"];
             "grades" := [] ]};
     2 := {[ "keywords" := ["ceo"; "cfo"; "cto"; "coo"; "cmo"; "cpo"; "chro"; "cio";
                            "chief"; "managing director"; "md"; "president";
                            "executive director"; "ed"; "svp"; "senior vice president"];
             "grades" := ["E1"; "E2"; "L10"; "L9"] ]};
     3 := {[ "keywords" := ["vice president"; "vp "; "avp"; "associate vice president";
                            "general manager"; "gm"; "senior director"; "head of";
                            "principal"; "evp"];
             "grades" := ["E3"; "E4"; "L8"; "L7"; "M5"; "M4"] ]};
     4 := {[ "keywords" := ["director"; "senior manager"; "manager"; "associate director";
                            "program manager"; "delivery manager"; "project manager"];
             "grades" := ["M3"; "M2"; "L6"; "L5"] ]};
     5 := {[ "keywords" := ["lead"; "team lead"; "tech lead"; "senior consultant";
                            "senior analyst"; "senior engineer"; "senior developer";
                            "senior associate"; "supervisor"; "assistant manager"];
             "grades" := ["M1"; "L4"; "L3"; "A4"; "A3"] ]};
     6 := {[ "keywords" := ["analyst"; "associate"; "engineer"; "developer"; "consultant";
                            "executive"; "trainee"; "intern"; "graduate"; "fresher"];
             "grades" := ["A2"; "A1"; "L2"; "L1"; "T1"; "T2"] ]} ]}.

(** [tier_mapping.get(tier, {}).get(key, [])] *)
Definition tier_list (tier_mapping : gmap nat (gmap string (list string)))
    (tier : nat) (key : string) : list string :=
  let tier_config := default ∅ (tier_mapping !! tier) in
  default [] (tier_config !! key).

(** The body of [for tier in range(1, 7)], over the tiers still to try. *)
Fixpoint classify_loop (tier_mapping : gmap nat (gmap string (list string)))
    (title_lower grade_upper : string) (tiers : list nat) : nat :=
  match tiers with
  | [] => 0
  | tier :: rest =>
      if PyStr.any_in (tier_list tier_mapping tier "keywords") title_lower then tier
      else if PyStr.mem grade_upper (tier_list tier_mapping tier "grades") then tier
      else classify_loop tier_mapping title_lower grade_upper rest
  end.

(** The two checks one tier performs in the loop, as one test. *)
Definition tier_hit (tier_mapping : gmap nat (gmap string (list string)))
    (title_lower grade_upper : string) (tier : nat) : bool :=
  PyStr.any_in (tier_list tier_mapping tier "keywords") title_lower
  || PyStr.mem grade_upper (tier_list tier_mapping tier "grades").

(** [DataAdapter.classify_tier]; [(title or "")] is [title] on strings. *)
Definition classify_tier (tier_mapping : gmap nat (gmap string (list string)))
    (title grade : string) : nat :=
  let title_lower := PyStr.lower title in
  let grade_upper := PyStr.upper grade in
  classify_loop tier_mapping title_lower grade_upper (seq 1 6).

(** The two token lists written in [normalize_gender]. *)
Definition male_tokens : list string := ["M"; "MALE"; "1"; "MAN"; "HE"].
Definition female_tokens : list string := ["F"; "FEMALE"; "2"; "WOMAN"; "SHE"].

(** [DataAdapter.normalize_gender] *)
Definition normalize_gender (value : string) : string :=
  if PyStr.is_empty value then "O"
  else
    let v := PyStr.upper (PyStr.strip value) in
    if PyStr.mem v male_tokens then "M"
    else if PyStr.mem v female_tokens then "F"
    else "O".

(** The state of a [CSVAdapter] after [__init__] and [connect]:
    [df] is [None] until a file has been loaded, and then the rows of the
    frame, each a map from column name to the [str] of the cell. *)
Record CSVAdapter := {
  tier_mapping : gmap nat (gmap string (list string));
  field_mapping : gmap string string;
  gender_values : gmap string (list string);
  active_values : list string;
  df : option (list (gmap string string))
}.

(** The defaults of [CSVAdapter.__init__]. *)
Definition default_gender_values : gmap string (list string) :=
  {[ "male" := ["M"; "Male"; "MALE"; "1"; "Man"];
     "female" := ["F"; "Female"; "FEMALE"; "2"; "Woman"] ]}.

Definition default_active_values : list string :=
  ["Active"; "ACTIVE"; "1"; "Y"; "Yes"; "TRUE"; "Current"].

Definition default_adapter (fm : gmap string string)
    (rows : option (list (gmap string string))) : CSVAdapter :=
  {| tier_mapping := DEFAULT_TIER_KEYWORDS;
     field_mapping := fm;
     gender_values := default_gender_values;
     active_values := default_active_values;
     df := rows |}.

(** [CSVAdapter._map_gender] *)
Definition _map_gender (self : CSVAdapter) (value : string) : string :=
  let v := PyStr.strip value in
  if PyStr.mem v (default [] (gender_values self !! "male")) then "M"
  else if PyStr.mem v (default [] (gender_values self !! "female")) then "F"
  else "O".

(** Truth value of [field_mapping.get(k)]: [None] and [""] are false. *)
Definition col_mapped (col : option string) : bool :=
  match col with
  | Some c => negb (PyStr.is_empty c)
  | None => false
  end.

(** [str(row.get(col, ""))]: a column the row does not have reads as
    the empty string. *)
Definition row_get (row : gmap string string) (col : option string) : string :=
  default "" (col ≫= fun c => row !! c).

(** [str(row.get(col, "")) if col else ""] *)
Definition field (row : gmap string string) (col : option string) : string :=
  if col_mapped col then row_get row col else "".

(** The tier computed for a row in [fetch_employees]. *)
Definition row_tier (self : CSVAdapter) (row : gmap string string) : nat :=
  let title := field row (field_mapping self !! "title") in
  let grade := field row (field_mapping self !! "grade") in
  classify_tier (tier_mapping self) title grade.

(** The [StandardEmployee] built for a row in [fetch_employees]. *)
Definition row_employee (self : CSVAdapter) (row : gmap string string) : StandardEmployee :=
  let gender_col := field_mapping self !! "gender" in
  let status_col := field_mapping self !! "status" in
  let dept_col := field_mapping self !! "department" in
  let raw_gender := field row gender_col in
  let gender := _map_gender self raw_gender in
  let tier := row_tier self row in
  let is_active :=
    if col_mapped status_col
    then PyStr.mem (row_get row status_col) (active_values self)
    else true in
  let dept := if col_mapped dept_col then Some (field row dept_col) else None in
  {| gender := gender; tier := tier; is_active := is_active;
     tenure_band := None; department_type := dept |}.

(** One iteration of [for _, row in self.df.iterrows()]. *)
Definition fetch_step (self : CSVAdapter) (employees : list StandardEmployee)
    (row : gmap string string) : list StandardEmployee :=
  let e := row_employee self row in
  if (0 <? tier e)%nat then employees ++ [e] else employees.

(** The loop of [fetch_employees] over the rows of the frame. *)
Definition fetch_rows (self : CSVAdapter) (rows : list (gmap string string))
    : list StandardEmployee :=
  fold_left (fetch_step self) rows [].

(** [CSVAdapter.fetch_employees] *)
Definition fetch_employees (self : CSVAdapter) : list StandardEmployee :=
  match df self with
  | None => []
  | Some rows => fetch_rows self rows
  end.

(** The title matches a keyword of tier [t]: some keyword of the tier
    occurs in the lower-cased title. *)
Definition keyword_match (tm : gmap nat (gmap string (list string)))
    (t : nat) (title : string) : Prop :=
  exists kw, In kw (tier_list tm t "keywords") /\ PyStr.substring_of kw (PyStr.lower title).

(** The grade is one of the grade codes of tier [t]. *)
Definition grade_match (tm : gmap nat (gmap string (list string)))
    (t : nat) (grade : string) : Prop :=
  In (PyStr.upper grade) (tier_list tm t "grades").

(** The rule table with a single keyword [kw] at tier [t]. *)
Definition single_rule (t : nat) (kw : string) : gmap nat (gmap string (list string)) :=
  {[ t := {[ "keywords" := [kw]; "grades" := [] ]} ]}.

(** [DEFAULT_TIER_KEYWORDS] without the Tier-3 entry ["senior director"]
    and the Tier-4 entries ["director"] and ["associate director"]. *)
Definition TIER_KEYWORDS_PRUNED : gmap nat (gmap string (list string)) :=
  <[ 3 := {[ "keywords" := ["vice president"; "vp "; "avp"; "associate vice president";
                            "general manager"; "gm"; "head of"; "principal"; "evp"];
             "grades" := ["E3"; "E4"; "L8"; "L7"; "M5"; "M4"] ]} ]>
  (<[ 4 := {[ "keywords" := ["senior manager"; "manager";
                             "program manager"; "delivery manager"; "project manager"];
              "grades" := ["M3"; "M2"; "L6"; "L5"] ]} ]> DEFAULT_TIER_KEYWORDS).

End DataAdapter.

(* ===================================================================== *)
(** * linkedin_collector.py *)
(* ===================================================================== *)

Module LinkedIn.

(** [INDIAN_NAMES_GENDER]: lower-cased first name to ["F"] or ["M"]. *)
Definition INDIAN_NAMES_GENDER : gmap string string :=
  list_to_map
    [ ("priya", "F"); ("neha", "F"); ("pooja", "F"); ("anjali", "F"); ("divya", "F");
      ("swati", "F"); ("kavita", "F"); ("sunita", "F"); ("meera", "F"); ("anita", "F");
      ("deepika", "F"); ("shreya", "F"); ("nisha", "F"); ("rekha", "F"); ("geeta", "F");
      ("shalini", "F"); ("preeti", "F"); ("manisha", "F"); ("rashmi", "F"); ("smita", "F");
      ("archana", "F"); ("shweta", "F"); ("pallavi", "F"); ("jyoti", "F"); ("ritu", "F");
      ("aarti", "F"); ("sneha", "F"); ("bhavna", "F"); ("garima", "F"); ("kriti", "F");
      ("aditi", "F"); ("aishwarya", "F"); ("ananya", "F"); ("diya", "F"); ("isha", "F");
      ("kiara", "F"); ("mira", "F"); ("nandini", "F"); ("riya", "F"); ("saanvi", "F");
      ("tanvi", "F"); ("vedika", "F"); ("zara", "F"); ("anika", "F"); ("avni", "F");
      ("rahul", "M"); ("amit", "M"); ("raj", "M"); ("suresh", "M"); ("rajesh", "M");
      ("vijay", "M"); ("ajay", "M"); ("sanjay", "M"); ("deepak", "M"); ("manoj", "M");
      ("arun", "M"); ("kumar", "M"); ("ravi", "M"); ("sandeep", "M"); ("vikram", "M");
      ("ashok", "M"); ("ramesh", "M"); ("mukesh", "M"); ("dinesh", "M"); ("naresh", "M");
      ("rohit", "M"); ("nikhil", "M"); ("varun", "M"); ("karan", "M"); ("arjun", "M");
      ("aarav", "M"); ("advait", "M"); ("arnav", "M"); ("dev", "M"); ("harsh", "M");
      ("ishaan", "M"); ("kabir", "M"); ("krishna", "M"); ("mohit", "M"); ("pranav", "M");
      ("reyansh", "M"); ("siddharth", "M"); ("veer", "M"); ("yash", "M"); ("aditya", "M");
      ("akash", "M"); ("ankit", "M"); ("gaurav", "M"); ("himanshu", "M"); ("manish", "M") ].

Definition female_endings : list string :=
  ["a"; "i"; "ee"; "ti"; "ni"; "ya"; "ka"; "na"; "ri"].

Definition male_endings : list string :=
  ["sh"; "raj"; "deep"; "kumar"; "esh"; "an"; "av"].

(** [estimate_gender] *)
Definition estimate_gender (first_name : string) : string :=
  if PyStr.is_empty first_name then "U"
  else
    let name := PyStr.strip (PyStr.lower first_name) in
    match INDIAN_NAMES_GENDER !! name with
    | Some g => g
    | None =>
        if existsb (fun ending => PyStr.endswith ending name && (3 <? String.length name)%nat)
                   female_endings then "F"
        else if existsb (fun ending => PyStr.endswith ending name) male_endings then "M"
        else "U"
    end.

(** The keyword lists of [classify_title], as written there. *)
Definition tier_1 : list string :=
  ["independent director"; "non-executive director"; "board member";
   "board of director"; " chairman "; "chairperson"; "chairwoman"].

Definition tier_2 : list string :=
  ["chief executive"; "chief financial"; "chief technology";
   "chief operating"; "chief marketing"; "chief information";
   "chief human"; "chief people"; "chief product"; "chief revenue";
   " ceo "; " cfo "; " cto "; " coo "; " cmo "; " cio "; " chro "; " cpo ";
   "managing director"; " president "; " founder"; "co-founder"].

Definition tier_3 : list string :=
  ["executive vice president"; "senior vice president"; "vice president";
   " evp "; " svp "; " vp "; " vp,"; ",vp "; "vp-"; "general manager";
   "global head"; "country head"; "regional head"; "business head";
   " head of "; " partner "].

Definition tier_4 : list string :=
  ["senior director"; "associate director"; " director "; " director,";
   "senior manager"; "program manager"; "project manager"; "product manager";
   "delivery manager"; "engagement manager"; "engineering manager";
   " manager "].

Definition tier_5 : list string :=
  ["team lead"; "tech lead"; "lead engineer"; "lead developer"; "lead analyst";
   " supervisor "; "senior consultant"; "senior analyst"; "senior engineer";
   "senior developer"; "senior associate"; "senior specialist";
   "senior software engineer"; "senior software developer";
   " principal "; " lead "; " staff engineer"; " staff developer";
   "senior "].

Definition tier_6 : list string :=
  [" analyst "; " associate "; " consultant "; " engineer "; " developer ";
   " executive "; " trainee "; " intern "; " fresher "; " graduate ";
   " specialist "].

(** The keyword list tested for tier [t] (empty outside 1..6). *)
Definition tier_keywords (t : nat) : list string :=
  match t with
  | 1 => tier_1 | 2 => tier_2 | 3 => tier_3
  | 4 => tier_4 | 5 => tier_5 | 6 => tier_6
  | _ => []
  end.

(** [classify_title] *)
Definition classify_title (title : string) : nat :=
  if PyStr.is_empty title then 0
  else
    let title_lower := " " +:+ PyStr.lower title +:+ " " in
    if PyStr.any_in tier_1 title_lower then 1
    else if PyStr.any_in tier_2 title_lower then 2
    else if PyStr.any_in tier_3 title_lower then 3
    else if PyStr.any_in tier_4 title_lower then 4
    else if PyStr.any_in tier_5 title_lower then 5
    else if PyStr.any_in tier_6 title_lower then 6
    else 0.

(** The title matches a keyword of tier [t] in [classify_title]: some
    keyword of the tier's list occurs in the padded lower-cased title. *)
Definition keyword_match (t : nat) (title : string) : Prop :=
  exists kw, In kw (tier_keywords t) /\
             PyStr.substring_of kw (" " +:+ PyStr.lower title +:+ " ").

(** [AggregateCount] *)
Record AggregateCount := {
  male : Z;
  female : Z;
  unknown : Z
}.

(** [AggregateCount()] *)
Definition empty_count : AggregateCount := {| male := 0; female := 0; unknown := 0 |}.

(** [AggregateCount.total] *)
Definition total (c : AggregateCount) : Z := (male c + female c + unknown c)%Z.

(** A Python number: [female_pct] returns a [float] or the [int] 0. *)
Inductive pynum :=
| PyInt (z : Z)
| PyFloat (f : float).

(** [float(z)] for an [int] below 2^53 in absolute value. *)
Definition float_of_int (z : Z) : float :=
  if (z <? 0)%Z then PrimFloat.opp (PrimFloat.of_uint63 (Uint63.of_Z (- z)))
  else PrimFloat.of_uint63 (Uint63.of_Z z).

(** [a / b] on two [int]s: [None] is [ZeroDivisionError]. *)
Definition truediv (a b : Z) : option float :=
  if (b =? 0)%Z then None
  else Some (PrimFloat.div (float_of_int a) (float_of_int b)).

(** The integer nearest to [n / d] for [d > 0], ties to the even one. *)
Definition div_half_even (n d : Z) : Z :=
  let q := (n / d)%Z in
  let r := (n mod d)%Z in
  match (2 * r ?= d)%Z with
  | Lt => q
  | Gt => (q + 1)%Z
  | Eq => if Z.even q then q else (q + 1)%Z
  end.

(** [round(x, 1)]: the float nearest to the decimal with one digit after
    the point that is nearest to the exact value of [x], ties to even. *)
Definition round1 (x : float) : float :=
  match Prim2SF x with
  | S754_finite s m e =>
      let n := (10 * Z.pos m)%Z in
      let tenths := if (0 <=? e)%Z then (n * 2 ^ e)%Z else div_half_even n (2 ^ (- e)) in
      let r := PrimFloat.div (float_of_int tenths) (float_of_int 10) in
      if s then PrimFloat.opp r else r
  | _ => x
  end.

(** [AggregateCount.female_pct]; [None] would be an exception raised. *)
Definition female_pct (c : AggregateCount) : option pynum :=
  let known := (male c + female c)%Z in
  if (0 <? known)%Z
  then q ← truediv (female c) known;
       Some (PyFloat (round1 (PrimFloat.mul q (float_of_int 100))))
  else Some (PyInt 0).

(** The same expression without the call of [round]. *)
Definition female_pct_unrounded (c : AggregateCount) : option pynum :=
  let known := (male c + female c)%Z in
  if (0 <? known)%Z
  then q ← truediv (female c) known;
       Some (PyFloat (PrimFloat.mul q (float_of_int 100)))
  else Some (PyInt 0).

(** [CompanyResearchData] after [__post_init__]. *)
Record CompanyResearchData := {
  company_name : string;
  company_linkedin_url : string;
  data_collection_date : string;
  tier_1_board : AggregateCount;
  tier_2_csuite : AggregateCount;
  tier_3_senior : AggregateCount;
  tier_4_middle : AggregateCount;
  tier_5_junior : AggregateCount;
  tier_6_entry : AggregateCount;
  total_profiles_analyzed : Z;
  methodology_notes : string
}.

(** The [result] created at the start of [search_company_employees]. *)
Definition new_result (name date : string) : CompanyResearchData :=
  {| company_name := name; company_linkedin_url := "";
     data_collection_date := date;
     tier_1_board := empty_count; tier_2_csuite := empty_count;
     tier_3_senior := empty_count; tier_4_middle := empty_count;
     tier_5_junior := empty_count; tier_6_entry := empty_count;
     total_profiles_analyzed := 0;
     methodology_notes := "Automated collection from LinkedIn public profiles" |}.

(** [tier_map.get(tier)]: the bucket object of [result] the dict
    [tier_map] holds under [tier]. *)
Definition tier_map (result : CompanyResearchData) (tier : nat) : option AggregateCount :=
  match tier with
  | 1 => Some (tier_1_board result)
  | 2 => Some (tier_2_csuite result)
  | 3 => Some (tier_3_senior result)
  | 4 => Some (tier_4_middle result)
  | 5 => Some (tier_5_junior result)
  | 6 => Some (tier_6_entry result)
  | _ => None
  end.

(** Writing through [tier_map[tier]]: the dict holds the bucket objects
    of [result] themselves, so the update is seen in [result]. *)
Definition set_tier (result : CompanyResearchData) (tier : nat) (c : AggregateCount)
    : CompanyResearchData :=
  let r := result in
  let mk b1 b2 b3 b4 b5 b6 :=
    {| company_name := company_name r; company_linkedin_url := company_linkedin_url r;
       data_collection_date := data_collection_date r;
       tier_1_board := b1; tier_2_csuite := b2; tier_3_senior := b3;
       tier_4_middle := b4; tier_5_junior := b5; tier_6_entry := b6;
       total_profiles_analyzed := total_profiles_analyzed r;
       methodology_notes := methodology_notes r |} in
  match tier with
  | 1 => mk c (tier_2_csuite r) (tier_3_senior r) (tier_4_middle r) (tier_5_junior r) (tier_6_entry r)
  | 2 => mk (tier_1_board r) c (tier_3_senior r) (tier_4_middle r) (tier_5_junior r) (tier_6_entry r)
  | 3 => mk (tier_1_board r) (tier_2_csuite r) c (tier_4_middle r) (tier_5_junior r) (tier_6_entry r)
  | 4 => mk (tier_1_board r) (tier_2_csuite r) (tier_3_senior r) c (tier_5_junior r) (tier_6_entry r)
  | 5 => mk (tier_1_board r) (tier_2_csuite r) (tier_3_senior r) (tier_4_middle r) c (tier_6_entry r)
  | 6 => mk (tier_1_board r) (tier_2_csuite r) (tier_3_senior r) (tier_4_middle r) (tier_5_junior r) c
  | _ => r
  end.

(** The [if gender == "M" ... elif gender == "F" ... else] increment. *)
Definition bump (gender : string) (c : AggregateCount) : AggregateCount :=
  if String.eqb gender "M"
  then {| male := male c + 1; female := female c; unknown := unknown c |}
  else if String.eqb gender "F"
  then {| male := male c; female := female c + 1; unknown := unknown c |}
  else {| male := male c; female := female c; unknown := unknown c + 1 |}.

(** [result.total_profiles_analyzed += 1] *)
Definition count_profile (r : CompanyResearchData) : CompanyResearchData :=
  {| company_name := company_name r; company_linkedin_url := company_linkedin_url r;
     data_collection_date := data_collection_date r;
     tier_1_board := tier_1_board r; tier_2_csuite := tier_2_csuite r;
     tier_3_senior := tier_3_senior r; tier_4_middle := tier_4_middle r;
     tier_5_junior := tier_5_junior r; tier_6_entry := tier_6_entry r;
     total_profiles_analyzed := total_profiles_analyzed r + 1;
     methodology_notes := methodology_notes r |}.

(** A profile card as the loop reads it: the text of the element
    [.entity-result__title-text] and of [.entity-result__primary-subtitle];
    [None] when [find_element] raises. *)
Record card := {
  title_text : option string;
  primary_subtitle : option string
}.

(** The [(name, title)] pair read from a card; [None] when reading
    raises. *)
Definition read_card (c : card) : option (string * string) :=
  name_text ← title_text c;
  let name := PyStr.strip (PyStr.before_char "010"%char name_text) in
  subtitle ← primary_subtitle c;
  let title := PyStr.strip subtitle in
  Some (name, title).

(** The two writes of the loop body, for a profile of the given gender
    and tier: the increment through [tier_map] when [tier in tier_map],
    then [result.total_profiles_analyzed += 1]. *)
Definition tally (result : CompanyResearchData) (gender : string) (tier : nat)
    : CompanyResearchData :=
  count_profile
    match tier_map result tier with
    | Some tier_obj => set_tier result tier (bump gender tier_obj)
    | None => result
    end.

(** The aggregate update for one [(name, title)] pair; [None] when
    [name.split()[0]] raises. *)
Definition add_profile (result : CompanyResearchData) (name title : string)
    : option CompanyResearchData :=
  first_name ← (if PyStr.is_empty name then Some "" else PyStr.first_word name);
  let gender := estimate_gender first_name in
  let tier := classify_title title in
  Some (tally result gender tier).

(** The body of the [try] of the card loop: all reads come before the
    first write, so an exception leaves [result] as it was. *)
Definition try_card (result : CompanyResearchData) (c : card) : option CompanyResearchData :=
  '(name, title) ← read_card c;
  add_profile result name title.

(** One iteration of [for card in profile_cards], with
    [except Exception: continue]. *)
Definition process_card (result : CompanyResearchData) (c : card) : CompanyResearchData :=
  default result (try_card result c).

(** The card loop over the cards of all pages, in order. *)
Definition process_cards (result : CompanyResearchData) (cards : list card)
    : CompanyResearchData :=
  fold_left process_card cards result.

(** Sum of the totals of the six buckets. *)
Definition bucket_sum (r : CompanyResearchData) : Z :=
  (total (tier_1_board r) + total (tier_2_csuite r) + total (tier_3_senior r)
   + total (tier_4_middle r) + total (tier_5_junior r) + total (tier_6_entry r))%Z.

(** The tier of a card that can be read. *)
Definition card_tier (c : card) : option nat :=
  '(_, title) ← read_card c; Some (classify_title title).

(** Can the card be read. *)
Definition is_readable (c : card) : bool :=
  match read_card c with
  | Some _ => true
  | None => false
  end.

(** Can the card be read and is its title tier 0. *)
Definition is_unclassifiable (c : card) : bool :=
  match card_tier c with
  | Some 0 => true
  | _ => false
  end.

(** N: the cards of the batch that can be read. *)
Definition readable (cards : list card) : Z :=
  Z.of_nat (length (List.filter is_readable cards)).

(** M: the readable cards of the batch whose title is tier 0. *)
Definition unclassifiable (cards : list card) : Z :=
  Z.of_nat (length (List.filter is_unclassifiable cards)).

End LinkedIn.

(* ===================================================================== *)
(** * The specification's wording of three rules *)
(* ===================================================================== *)

Module Spec.

(** Keyword test as the specification words it: the lower-cased pattern
    is a substring of the lower-cased title, both wrapped with a single
    leading and trailing space. *)
Definition pattern_matches (pattern title : string) : bool :=
  PyStr.contains (" " +:+ PyStr.lower pattern +:+ " ")
                 (" " +:+ PyStr.lower title +:+ " ").

(** Exact-token gender rule as the specification words it: the input is
    trimmed and upper-cased, then matched against the accepted male and
    female tokens; anything else is Unknown. *)
Definition classify_gender_token (males females : list string) (raw : string) : string :=
  let v := PyStr.upper (PyStr.strip raw) in
  if PyStr.mem v males then "M"
  else if PyStr.mem v females then "F"
  else "O".

(** Suffix heuristics as the specification's data model has them:
    [(suffix, gender, minimum name length)] triples, the female ones
    first. The thresholds are those of the code: 3 for every female
    ending, none (0) for the male endings. *)
Definition suffix_rules : list (string * string * nat) :=
  map (fun suf => (suf, "F", 3)) LinkedIn.female_endings
  ++ map (fun suf => (suf, "M", 0)) LinkedIn.male_endings.

(** The gender of the first rule whose suffix ends the name and whose
    threshold the name's length exceeds. *)
Fixpoint first_suffix_rule (rules : list (string * string * nat)) (name : string)
    : option string :=
  match rules with
  | [] => None
  | (suf, g, min_len) :: rest =>
      if PyStr.endswith suf name && (min_len <? String.length name)%nat
      then Some g
      else first_suffix_rule rest name
  end.

(** Name inference in the specification's four steps. *)
Definition estimate (first_name : string) : string :=
  let name := PyStr.strip (PyStr.lower first_name) in
  if PyStr.is_empty name then "U"
  else
    match LinkedIn.INDIAN_NAMES_GENDER !! name with
    | Some g => g
    | None => default "U" (first_suffix_rule suffix_rules name)
    end.

End Spec.

(* ===================================================================== *)
(** * Sample inputs *)
(* ===================================================================== *)

Module Samples.

(** The three raw rows of the specification's end-to-end example. *)
Definition rows : list (gmap string string) :=
  [ {[ "title" := "Software Engineer"; "gender" := "F" ]};
    {[ "title" := "CEO"; "gender" := "M" ]};
    {[ "title" := "Xyz Unknown Role"; "gender" := "M" ]} ].

(** The straightforward field mapping of that example. *)
Definition mapping : gmap string string :=
  {[ "title" := "title"; "gender" := "gender" ]}.

(** A [CSVAdapter] with the default configuration over those rows. *)
Definition adapter : DataAdapter.CSVAdapter :=
  DataAdapter.default_adapter mapping (Some rows).

(** A row that has a gender but no title column. *)
Definition row_without_title : gmap string string := {[ "gender" := "F" ]}.

(** A card whose title is in no tier list. *)
Definition card_unknown_role : LinkedIn.card :=
  {| LinkedIn.title_text := Some "Priya Sharma";
     LinkedIn.primary_subtitle := Some "Xyz Unknown Role" |}.

(** A card read as a chief executive. *)
Definition card_ceo : LinkedIn.card :=
  {| LinkedIn.title_text := Some "Rahul Verma";
     LinkedIn.primary_subtitle := Some "CEO" |}.

(** A card whose subtitle element is missing: [find_element] raises. *)
Definition card_broken : LinkedIn.card :=
  {| LinkedIn.title_text := Some "Neha Gupta";
     LinkedIn.primary_subtitle := None |}.

(** A fresh aggregate. *)
Definition fresh : LinkedIn.CompanyResearchData := LinkedIn.new_result "Acme" "2024-01-01".

(** A bucket of two men and one woman. *)
Definition two_to_one : LinkedIn.AggregateCount :=
  {| LinkedIn.male := 2; LinkedIn.female := 1; LinkedIn.unknown := 0 |}.

End Samples.

(* ===================================================================== *)
(** * Further string primitives *)
(* ===================================================================== *)

Module PyStrMore.

(** The piece of [s] after the first occurrence of [sep]:
    [s.split(sep, 1)[1]] when [sep] occurs in [s]. *)
Fixpoint after_char (sep : ascii) (s : string) : string :=
  match s with
  | EmptyString => EmptyString
  | String c s' => if Ascii.eqb c sep then s' else after_char sep s'
  end.

(** Every character of [s] is white space. *)
Fixpoint all_space (s : string) : bool :=
  match s with
  | EmptyString => true
  | String c s' => PyStr.is_space c && all_space s'
  end.

(** [s[0]]: [None] is the [IndexError] of indexing the empty string. *)
Definition head_char (s : string) : option string :=
  match s with
  | EmptyString => None
  | String c _ => Some (String c EmptyString)
  end.

End PyStrMore.

(* ===================================================================== *)
(** * linkedin_collector.py: the table [TITLE_TO_TIER] *)
(* ===================================================================== *)

Module TitleTable.

(** [TITLE_TO_TIER]: the documented keyword-to-tier table. *)
Definition TITLE_TO_TIER : gmap string nat :=
  list_to_map
    [ ("independent director", 1); ("non-executive director", 1); ("board member", 1);
      ("board of director", 1); ("chairman", 1); ("chairperson", 1); ("chairwoman", 1);
      ("chief executive officer", 2); ("chief financial officer", 2);
      ("chief technology officer", 2); ("chief operating officer", 2);
      ("chief marketing officer", 2); ("chief information officer", 2);
      ("chief human resource", 2); ("chief people officer", 2); ("ceo", 2); ("cfo", 2);
      ("cto", 2); ("coo", 2); ("cmo", 2); ("cio", 2); ("chro", 2);
      ("managing director", 2); ("president", 2); ("founder", 2); ("co-founder", 2);
      ("partner", 2); ("chief", 2); ("executive vice president", 3);
      ("senior vice president", 3); ("vice president", 3); ("evp", 3); ("svp", 3);
      ("vp ", 3); (" vp", 3); ("vp,", 3); ("vp-", 3); ("general manager", 3);
      ("global head", 3); ("country head", 3); ("regional head", 3);
      ("business head", 3); ("senior director", 4); ("associate director", 4);
      ("director", 4); ("senior manager", 4); ("program manager", 4);
      ("project manager", 4); ("delivery manager", 4); ("engagement manager", 4);
      ("manager", 4); ("team lead", 5); ("tech lead", 5); ("lead engineer", 5);
      ("lead developer", 5); ("lead analyst", 5); ("supervisor", 5);
      ("senior consultant", 5); ("senior analyst", 5); ("senior engineer", 5);
      ("senior developer", 5); ("senior associate", 5); ("principal", 5); ("lead", 5);
      ("analyst", 6); ("associate", 6); ("consultant", 6); ("engineer", 6);
      ("developer", 6); ("executive", 6); ("trainee", 6); ("intern", 6);
      ("fresher", 6); ("graduate trainee", 6); ("graduate", 6) ].

(** The five keys of [TITLE_TO_TIER] that [classify_title] puts in another
    tier, with the tier it returns. *)
Definition table_exceptions : list (string * nat) :=
  [ ("vice president", 2); ("senior vice president", 2);
    ("executive vice president", 2); ("partner", 3); ("chief", 0) ].

End TitleTable.

(* ===================================================================== *)
(** * federated/data_adapter.py: [auto_detect_columns] and the demo *)
(* ===================================================================== *)

Module Wizard.

Definition gender_patterns : list string := ["gender"; "sex"; "m/f"; "male/female"].
Definition title_patterns : list string :=
  ["title"; "designation"; "position"; "job"; "role"].
Definition grade_patterns : list string :=
  ["grade"; "level"; "band"; "job_level"; "joblevel"].
Definition status_patterns : list string :=
  ["status"; "active"; "employment"; "emp_status"].
Definition dept_patterns : list string :=
  ["department"; "dept"; "function"; "division"].

(** One of the five inner loops:
    [for pattern in patterns: if pattern in col_lower:
       suggestions[field] = col; break]. *)
Definition suggest (patterns : list string) (field col col_lower : string)
    (suggestions : gmap string string) : gmap string string :=
  if PyStr.any_in patterns col_lower then <[field := col]> suggestions else suggestions.

(** The body of [for col in df.columns]. *)
Definition detect_step (suggestions : gmap string string) (col : string)
    : gmap string string :=
  let col_lower := PyStr.lower col in
  let s1 := suggest gender_patterns "gender" col col_lower suggestions in
  let s2 := suggest title_patterns "title" col col_lower s1 in
  let s3 := suggest grade_patterns "grade" col col_lower s2 in
  let s4 := suggest status_patterns "status" col col_lower s3 in
  suggest dept_patterns "department" col col_lower s4.

(** [auto_detect_columns], over the column names of the loaded sample. *)
Definition auto_detect_columns (columns : list string) : gmap string string :=
  fold_left detect_step columns ∅.

(** The five logical fields with the patterns that detect them. *)
Definition field_patterns : list (string * list string) :=
  [ ("gender", gender_patterns); ("title", title_patterns); ("grade", grade_patterns);
    ("status", status_patterns); ("department", dept_patterns) ].

(** Does the column name contain one of the patterns, once lower-cased. *)
Definition detects (patterns : list string) (col : string) : bool :=
  PyStr.any_in patterns (PyStr.lower col).

(** The grade patterns without ["job_level"] and ["joblevel"]. *)
Definition grade_patterns_short : list string := ["grade"; "level"; "band"].

(** The status patterns without ["emp_status"]. *)
Definition status_patterns_short : list string := ["status"; "active"; "employment"].

(** The demo's counting loop:
    [tier_counts[key] = tier_counts.get(key, 0) + 1] for
    [key = (emp.tier, emp.gender)]. *)
Definition count_step (tier_counts : gmap (nat * string) nat)
    (emp : DataAdapter.StandardEmployee) : gmap (nat * string) nat :=
  let key := (DataAdapter.tier emp, DataAdapter.gender emp) in
  <[key := default 0 (tier_counts !! key) + 1]> tier_counts.

Definition tier_counts (employees : list DataAdapter.StandardEmployee)
    : gmap (nat * string) nat :=
  fold_left count_step employees ∅.

(** [tier_counts.get((tier, g), 0)] *)
Definition count_of (counts : gmap (nat * string) nat) (tier : nat) (g : string) : nat :=
  default 0 (counts !! (tier, g)).

(** The employees of a tier and gender, counted directly. *)
Definition head_count (employees : list DataAdapter.StandardEmployee)
    (tier : nat) (g : string) : nat :=
  length (List.filter
            (fun e => (DataAdapter.tier e =? tier)%nat && String.eqb (DataAdapter.gender e) g)
            employees).

(** The sum over the six printed tiers of [m + f]. *)
Definition printed_total (counts : gmap (nat * string) nat) : nat :=
  list_sum (map (fun tier => count_of counts tier "M" + count_of counts tier "F") (seq 1 6)).

End Wizard.

(* ===================================================================== *)
(** * equiverse-data-collector/linkedin_collector.py *)
(* ===================================================================== *)

Module Collector.

(** The assignment one line of the [.env] file makes in [load_env]:
    the pair [(key.strip(), value.strip())] passed to [os.environ], or
    [None] for a line the loop ignores. *)
Definition env_assignment (raw_line : string) : option (string * string) :=
  let line := PyStr.strip raw_line in
  if negb (PyStr.is_empty line) && negb (PyStr.startswith "#" line)
     && PyStr.contains "=" line
  then
    let key := PyStr.before_char "="%char line in
    let value := PyStrMore.after_char "="%char line in
    Some (PyStr.strip key, PyStr.strip value)
  else None.

(** A profile card as the loop reads it. [inner_html] is
    [card.get_attribute('innerHTML')], [None] when it cannot be sliced;
    [name_texts] and [title_texts] hold, selector by selector and in the
    order of [name_selectors] and [title_selectors], the [.text] of the
    element found, [None] when the lookup raises; [span_texts] is the
    [.text] of every [span] of the card, [None] when a read raises. *)
Record card := {
  inner_html : option string;
  name_texts : list (option string);
  title_texts : list (option string);
  span_texts : option (list (option string))
}.

(** The condition that ends the search for a name. *)
Definition name_found (name : string) : bool :=
  negb (PyStr.is_empty name)
  && negb (PyStr.contains "linkedin member" (PyStr.lower name))
  && (2 <? String.length name)%nat.

(** [for sel in name_selectors: try: ... except: continue], from the
    current value of [name]. *)
Fixpoint scan_names (name : string) (texts : list (option string)) : string :=
  match texts with
  | [] => name
  | None :: rest => scan_names name rest
  | Some text :: rest =>
      let name' := PyStr.strip (PyStr.before_char "010"%char text) in
      if name_found name' then name' else scan_names name' rest
  end.

(** The condition under which the card is skipped. *)
Definition name_skipped (name : string) : bool :=
  PyStr.is_empty name
  || PyStr.contains "linkedin member" (PyStr.lower name)
  || (String.length name <? 2)%nat.

(** [for sel in title_selectors: try: ... except: continue], from the
    current value of [title]. *)
Fixpoint scan_titles (title : string) (texts : list (option string)) : string :=
  match texts with
  | [] => title
  | None :: rest => scan_titles title rest
  | Some text :: rest =>
      let title' := PyStr.strip text in
      if negb (PyStr.is_empty title') then title' else scan_titles title' rest
  end.

Definition title_keywords : list string :=
  ["at"; "engineer"; "manager"; "director"; "lead";
   "analyst"; "developer"; "consultant"; "vp"; "head";
   "chief"; "ceo"; "cto"; "founder"; "president";
   "associate"; "senior"; "junior"; "intern"; "executive"].

(** The test a span text passes to become the title. *)
Definition looks_like_title (name span_text : string) : bool :=
  negb (PyStr.is_empty span_text)
  && negb (String.eqb span_text name)
  && (5 <? String.length span_text)%nat
  && existsb (fun kw => PyStr.contains kw (PyStr.lower span_text)) title_keywords.

(** The loop over the spans; a read that raises ends it with the title
    still empty. *)
Fixpoint scan_spans (name : string) (spans : list (option string)) : string :=
  match spans with
  | [] => ""
  | None :: _ => ""
  | Some text :: rest =>
      let span_text := PyStr.strip text in
      if looks_like_title name span_text then span_text else scan_spans name rest
  end.

(** The fallback taken when no title selector gave a title. *)
Definition fallback_title (name : string) (c : card) : string :=
  match span_texts c with
  | Some spans => scan_spans name spans
  | None => ""
  end.

(** The title the loop settles on for a card: the one the title selectors
    give, or else the fallback. *)
Definition card_title (c : card) : string :=
  let name := scan_names "" (name_texts c) in
  let title0 := scan_titles "" (title_texts c) in
  if PyStr.is_empty title0 then fallback_title name c else title0.

(** The dict [gender_sym] of the progress line. *)
Definition gender_sym : gmap string string :=
  {[ "M" := "♂"; "F" := "♀"; "U" := "?" ]}.

(** The dict [tier_name] of the progress line. *)
Definition tier_name : gmap nat string :=
  {[ 1 := "Board"; 2 := "C-Suite"; 3 := "Senior"; 4 := "Middle";
     5 := "Junior"; 6 := "Entry"; 0 := "Unknown" ]}.

(** An element of [raw_entries]. *)
Record raw_entry := {
  first_initial : string;
  entry_gender : string;
  entry_tier : nat;
  entry_tier_name : string;
  entry_title : string
}.

(** The body of the [try] up to the entry it appends: [None] when it
    raises, [Some None] when the card is skipped by [continue],
    [Some (Some e)] when [e] is appended and tallied. [first] is
    [idx == 0 and page == 0]. *)
Definition try_card (first : bool) (c : card) : option (option raw_entry) :=
  _ ← (if first then inner_html c else Some "");
  let name := scan_names "" (name_texts c) in
  if name_skipped name then Some None
  else
    let title0 := scan_titles "" (title_texts c) in
    let title := if PyStr.is_empty title0 then fallback_title name c else title0 in
    first_name ← (if PyStr.is_empty name then Some "" else PyStr.first_word name);
    let gender := LinkedIn.estimate_gender first_name in
    let tier := LinkedIn.classify_title title in
    _ ← gender_sym !! gender;
    _ ← PyStrMore.head_char first_name;
    tn ← tier_name !! tier;
    initial ← (if PyStr.is_empty first_name then Some "?" else PyStrMore.head_char first_name);
    Some (Some {| first_initial := initial; entry_gender := gender; entry_tier := tier;
                  entry_tier_name := tn; entry_title := title |}).

(** What the card loop has built so far. *)
Record state := {
  result : LinkedIn.CompanyResearchData;
  raw_entries : list raw_entry;
  page_count : Z
}.

(** One iteration of [for idx, card in enumerate(profile_cards)] on page
    [page], with [except Exception: continue]. *)
Definition process_card (page idx : nat) (st : state) (c : card) : state :=
  match try_card ((idx =? 0)%nat && (page =? 0)%nat) c with
  | Some (Some e) =>
      {| result := LinkedIn.tally (result st) (entry_gender e) (entry_tier e);
         raw_entries := raw_entries st ++ [e];
         page_count := page_count st + 1 |}
  | _ => st
  end.

(** The card loop from index [idx] on. *)
Fixpoint process_from (page idx : nat) (st : state) (cards : list card) : state :=
  match cards with
  | [] => st
  | c :: rest => process_from page (S idx) (process_card page idx st c) rest
  end.

(** The card loop of one page: [page_count = 0], then the cards. *)
Definition process_page (page : nat) (st : state) (cards : list card) : state :=
  process_from page 0
    {| result := result st; raw_entries := raw_entries st; page_count := 0 |} cards.

(** Tallying a list of raw entries in order. *)
Definition tally_entries (r : LinkedIn.CompanyResearchData) (entries : list raw_entry)
    : LinkedIn.CompanyResearchData :=
  fold_left (fun r e => LinkedIn.tally r (entry_gender e) (entry_tier e)) entries r.

End Collector.

(* ===================================================================== *)
(** * Comparing aggregates *)
(* ===================================================================== *)

Module AggregateOrder.

(** No counter of [b'] is below the one of [b]. *)
Definition count_le (b b' : LinkedIn.AggregateCount) : Prop :=
  (LinkedIn.male b <= LinkedIn.male b')%Z
  /\ (LinkedIn.female b <= LinkedIn.female b')%Z
  /\ (LinkedIn.unknown b <= LinkedIn.unknown b')%Z.

(** [r'] has the descriptive fields of [r] and no smaller count. *)
Definition grows (r r' : LinkedIn.CompanyResearchData) : Prop :=
  LinkedIn.company_name r' = LinkedIn.company_name r
  /\ LinkedIn.company_linkedin_url r' = LinkedIn.company_linkedin_url r
  /\ LinkedIn.data_collection_date r' = LinkedIn.data_collection_date r
  /\ LinkedIn.methodology_notes r' = LinkedIn.methodology_notes r
  /\ (LinkedIn.total_profiles_analyzed r <= LinkedIn.total_profiles_analyzed r')%Z
  /\ count_le (LinkedIn.tier_1_board r) (LinkedIn.tier_1_board r')
  /\ count_le (LinkedIn.tier_2_csuite r) (LinkedIn.tier_2_csuite r')
  /\ count_le (LinkedIn.tier_3_senior r) (LinkedIn.tier_3_senior r')
  /\ count_le (LinkedIn.tier_4_middle r) (LinkedIn.tier_4_middle r')
  /\ count_le (LinkedIn.tier_5_junior r) (LinkedIn.tier_5_junior r')
  /\ count_le (LinkedIn.tier_6_entry r) (LinkedIn.tier_6_entry r').

End AggregateOrder.

(* ===================================================================== *)
(** * Further sample inputs *)
(* ===================================================================== *)

Module MoreSamples.

(** The header of the demo file of [data_adapter.py]. *)
Definition demo_columns : list string :=
  ["emp_id"; "name"; "gender"; "designation"; "grade"; "department"; "status"].

(** A card of an anonymous member: every name selector gives
    "LinkedIn Member". *)
Definition member_card : Collector.card :=
  {| Collector.inner_html := Some "<div>";
     Collector.name_texts := [Some "LinkedIn Member"; None; Some " LinkedIn Member "];
     Collector.title_texts := [Some "Software Engineer"];
     Collector.span_texts := Some [] |}.

(** A card whose title comes from the span fallback. *)
Definition span_card : Collector.card :=
  {| Collector.inner_html := Some "<div>";
     Collector.name_texts := [None; Some "Priya Sharma"];
     Collector.title_texts := [None; Some "  "];
     Collector.span_texts := Some [Some "Priya Sharma"; Some "Senior Manager at Acme"] |}.

(** The state of the card loop before the first card. *)
Definition start : Collector.state :=
  {| Collector.result := Samples.fresh; Collector.raw_entries := [];
     Collector.page_count := 0 |}.

(** An aggregate with one woman counted in tier 4. *)
Definition one_counted : LinkedIn.CompanyResearchData :=
  LinkedIn.tally Samples.fresh "F" 4.

End MoreSamples.

(* ===================================================================== *)
(** * The string primitives meet their specifications *)
(* ===================================================================== *)

Section PyStrFacts.
Import PyStr.

Lemma app_cons (a : ascii) (s t : string) : String a s +:+ t = String a (s +:+ t).
Proof. reflexivity. Qed.

Lemma app_empty_l (t : string) : "" +:+ t = t.
Proof. reflexivity. Qed.

Lemma app_empty_r (s : string) : s +:+ "" = s.
Proof. induction s as [|a s IH]; [reflexivity|]. rewrite app_cons, IH. reflexivity. Qed.

Lemma app_assoc_str (s t u : string) : (s +:+ t) +:+ u = s +:+ (t +:+ u).
Proof.
  induction s as [|a s IH]; [reflexivity|].
  rewrite !app_cons, IH. reflexivity.
Qed.

Lemma app_eq_empty (s t : string) : s +:+ t = "" -> s = "" /\ t = "".
Proof. destruct s; [intros H; split; [reflexivity | exact H] | discriminate]. Qed.

Lemma is_empty_true (s : string) : is_empty s = true <-> s = "".
Proof. destruct s; split; intros H; try reflexivity; discriminate. Qed.

Lemma startswith_spec (p s : string) :
  startswith p s = true <-> exists post, s = p +:+ post.
Proof.
  revert s. induction p as [|a p IH]; intros s.
  - split; [intros _; exists s; reflexivity | reflexivity].
  - destruct s as [|b s]; simpl.
    + split; [discriminate | intros [post H]; discriminate].
    + destruct (Ascii.eqb_spec a b) as [->|Hne].
      * rewrite IH. split; intros [post H]; exists post.
        -- rewrite app_cons, H. reflexivity.
        -- rewrite app_cons in H. congruence.
      * split; [discriminate|]. intros [post H]. rewrite app_cons in H. congruence.
Qed.

Lemma contains_spec (p s : string) : contains p s = true <-> substring_of p s.
Proof.
  unfold substring_of. induction s as [|b s IH].
  - simpl. rewrite orb_false_r, startswith_spec. split.
    + intros [post H]. exists "", post. exact H.
    + intros [pre [post H]]. symmetry in H.
      apply app_eq_empty in H as [_ H]. apply app_eq_empty in H as [-> _].
      exists "". reflexivity.
  - cbn [contains]. rewrite orb_true_iff, startswith_spec, IH. split.
    + intros [[post H] | [pre [post H]]].
      * exists "", post. exact H.
      * exists (String b pre), post. rewrite app_cons, H. reflexivity.
    + intros [[|c pre] [post H]].
      * left. exists post. exact H.
      * right. exists pre, post. rewrite app_cons in H. congruence.
Qed.

Lemma endswith_spec (suf s : string) : endswith suf s = true <-> suffix_of suf s.
Proof.
  unfold suffix_of. induction s as [|b s IH].
  - cbn [endswith]. rewrite orb_false_r, String.eqb_eq. split.
    + intros <-. exists "". reflexivity.
    + intros [pre H]. symmetry in H. apply app_eq_empty in H as [_ ->]. reflexivity.
  - cbn [endswith]. rewrite orb_true_iff, String.eqb_eq, IH. split.
    + intros [<- | [pre H]].
      * exists "". reflexivity.
      * exists (String b pre). rewrite app_cons, H. reflexivity.
    + intros [[|c pre] H].
      * left. exact H.
      * right. exists pre. rewrite app_cons in H. congruence.
Qed.

Lemma any_in_spec (l : list string) (s : string) :
  any_in l s = true <-> exists kw, In kw l /\ substring_of kw s.
Proof.
  unfold any_in. rewrite existsb_exists.
  split; intros [kw [Hin H]]; exists kw; split; auto; apply contains_spec; exact H.
Qed.

Lemma mem_spec (v : string) (l : list string) : mem v l = true <-> In v l.
Proof.
  unfold mem. rewrite existsb_exists. split.
  - intros [x [Hin H]]. apply String.eqb_eq in H. subst. exact Hin.
  - intros H. exists v. split; [exact H | apply String.eqb_refl].
Qed.

(** An occurrence of [a +:+ b] is an occurrence of [b]. *)
Lemma substring_of_app_r (a b s : string) : substring_of (a +:+ b) s -> substring_of b s.
Proof.
  intros [pre [post H]]. exists (pre +:+ a), post.
  rewrite H, !app_assoc_str. reflexivity.
Qed.

Lemma contains_app_r (a b s : string) :
  contains b s = false -> contains (a +:+ b) s = false.
Proof.
  intros H. destruct (contains (a +:+ b) s) eqn:E; [|reflexivity].
  apply contains_spec, substring_of_app_r, contains_spec in E. congruence.
Qed.

(** Case mapping and white space. *)
Lemma is_space_lower (c : ascii) : is_space (lower_ascii c) = is_space c.
Proof. destruct c as [[] [] [] [] [] [] [] []]; reflexivity. Qed.

Lemma is_space_upper (c : ascii) : is_space (upper_ascii c) = is_space c.
Proof. destruct c as [[] [] [] [] [] [] [] []]; reflexivity. Qed.

Lemma upper_lower_ascii (c : ascii) : upper_ascii (lower_ascii c) = upper_ascii c.
Proof. destruct c as [[] [] [] [] [] [] [] []]; reflexivity. Qed.

Lemma upper_upper_ascii (c : ascii) : upper_ascii (upper_ascii c) = upper_ascii c.
Proof. destruct c as [[] [] [] [] [] [] [] []]; reflexivity. Qed.

Lemma upper_lower (s : string) : upper (lower s) = upper s.
Proof. induction s as [|c s IH]; simpl; [reflexivity|]. rewrite upper_lower_ascii, IH. reflexivity. Qed.

Lemma upper_upper (s : string) : upper (upper s) = upper s.
Proof. induction s as [|c s IH]; simpl; [reflexivity|]. rewrite upper_upper_ascii, IH. reflexivity. Qed.

Lemma is_empty_lower (s : string) : is_empty (lower s) = is_empty s.
Proof. destruct s; reflexivity. Qed.

Lemma is_empty_upper (s : string) : is_empty (upper s) = is_empty s.
Proof. destruct s; reflexivity. Qed.

Lemma lstrip_lower (s : string) : lstrip (lower s) = lower (lstrip s).
Proof.
  induction s as [|c s IH]; simpl; [reflexivity|].
  rewrite is_space_lower. destruct (is_space c); [exact IH | reflexivity].
Qed.

Lemma rstrip_lower (s : string) : rstrip (lower s) = lower (rstrip s).
Proof.
  induction s as [|c s IH]; simpl; [reflexivity|].
  rewrite IH, is_empty_lower, is_space_lower.
  destruct (is_empty (rstrip s) && is_space c); reflexivity.
Qed.

Lemma strip_lower (s : string) : strip (lower s) = lower (strip s).
Proof. unfold strip. rewrite lstrip_lower, rstrip_lower. reflexivity. Qed.

Lemma lstrip_upper (s : string) : lstrip (upper s) = upper (lstrip s).
Proof.
  induction s as [|c s IH]; simpl; [reflexivity|].
  rewrite is_space_upper. destruct (is_space c); [exact IH | reflexivity].
Qed.

Lemma rstrip_upper (s : string) : rstrip (upper s) = upper (rstrip s).
Proof.
  induction s as [|c s IH]; simpl; [reflexivity|].
  rewrite IH, is_empty_upper, is_space_upper.
  destruct (is_empty (rstrip s) && is_space c); reflexivity.
Qed.

Lemma strip_upper (s : string) : strip (upper s) = upper (strip s).
Proof. unfold strip. rewrite lstrip_upper, rstrip_upper. reflexivity. Qed.

(** A stripped string is empty or starts with a character that is not
    white space. *)
Lemma lstrip_head (s : string) :
  lstrip s = "" \/ exists c r, lstrip s = String c r /\ is_space c = false.
Proof.
  induction s as [|c s IH]; simpl; [left; reflexivity|].
  destruct (is_space c) eqn:E; [exact IH|]. right. exists c, s. auto.
Qed.

Lemma strip_head (s : string) :
  strip s = "" \/ exists c r, strip s = String c r /\ is_space c = false.
Proof.
  unfold strip. destruct (lstrip_head s) as [-> | [c [r [-> Hc]]]]; [left; reflexivity|].
  right. simpl. rewrite Hc, andb_false_r. exists c, (rstrip r). auto.
Qed.

Lemma first_word_strip (s : string) :
  is_empty (strip s) = false -> is_Some (first_word (strip s)).
Proof.
  intros H. destruct (strip_head s) as [E | [c [r [E Hc]]]].
  - rewrite E in H. discriminate.
  - rewrite E. unfold first_word. simpl. rewrite Hc. eexists. reflexivity.
Qed.

End PyStrFacts.

Example lower_test : PyStr.lower "Chief Executive Officer" = "chief executive officer".
Proof. reflexivity. Qed.
Example strip_test : PyStr.strip "  a b  " = "a b".
Proof. reflexivity. Qed.
Example contains_test : PyStr.contains "ed" "certified" = true.
Proof. reflexivity. Qed.
Example endswith_test : PyStr.endswith "ya" "priya" = true /\ PyStr.endswith "ya" "y" = false.
Proof. split; reflexivity. Qed.
Example first_word_test : PyStr.first_word "Priya Sharma" = Some "Priya".
Proof. reflexivity. Qed.

(* ===================================================================== *)
(** * Tier classification *)
(* ===================================================================== *)

Section TierFacts.
Import PyStr DataAdapter.

Lemma classify_loop_find tm s g tiers :
  classify_loop tm s g tiers = default 0 (find (tier_hit tm s g) tiers).
Proof.
  induction tiers as [|t tiers IH]; simpl; [reflexivity|].
  unfold tier_hit at 1.
  destruct (any_in (tier_list tm t "keywords") s); simpl; [reflexivity|].
  destruct (mem g (tier_list tm t "grades")); simpl; [reflexivity|]. exact IH.
Qed.

Lemma find_seq_first (f : nat -> bool) (n a t : nat) :
  a <= t < a + n -> f t = true -> (forall t', a <= t' < t -> f t' = false) ->
  find f (seq a n) = Some t.
Proof.
  revert a. induction n as [|n IH]; intros a Hr Ht Hlt; [lia|].
  simpl. destruct (Nat.eq_dec a t) as [->|Hne].
  - rewrite Ht. reflexivity.
  - rewrite (Hlt a) by lia. apply IH; [lia | exact Ht |].
    intros t' Ht'. apply Hlt. lia.
Qed.

Lemma find_seq_some (f : nat -> bool) (n a t : nat) :
  find f (seq a n) = Some t ->
  a <= t < a + n /\ f t = true /\ forall t', a <= t' < t -> f t' = false.
Proof.
  revert a. induction n as [|n IH]; intros a; simpl; [discriminate|].
  destruct (f a) eqn:E.
  - intros [= <-]. repeat split; [lia | lia | exact E | intros; lia].
  - intros H. apply IH in H as (Hr & Ht & Hlt). repeat split; [lia | lia | exact Ht |].
    intros t' Ht'. destruct (Nat.eq_dec t' a) as [->|]; [exact E | apply Hlt; lia].
Qed.

Lemma find_seq_none (f : nat -> bool) (n a : nat) :
  (forall t, a <= t < a + n -> f t = false) -> find f (seq a n) = None.
Proof.
  revert a. induction n as [|n IH]; intros a H; simpl; [reflexivity|].
  rewrite (H a) by lia. apply IH. intros t Ht. apply H. lia.
Qed.

Lemma tier_hit_true tm title grade t :
  tier_hit tm (lower title) (upper grade) t = true <->
  keyword_match tm t title \/ grade_match tm t grade.
Proof.
  unfold tier_hit, keyword_match, grade_match.
  rewrite orb_true_iff, any_in_spec, mem_spec. reflexivity.
Qed.

Lemma tier_hit_false tm title grade t :
  tier_hit tm (lower title) (upper grade) t = false <->
  ~ keyword_match tm t title /\ ~ grade_match tm t grade.
Proof.
  rewrite <- not_true_iff_false, tier_hit_true. tauto.
Qed.

(** [classify_tier] returns the first tier of 1..6 whose keyword or grade
    check succeeds. *)
Lemma classify_tier_first tm title grade t :
  1 <= t <= 6 ->
  (classify_tier tm title grade = t <->
   (keyword_match tm t title \/ grade_match tm t grade) /\
   forall t', 1 <= t' < t -> ~ keyword_match tm t' title /\ ~ grade_match tm t' grade).
Proof.
  intros Ht. unfold classify_tier. rewrite classify_loop_find. split.
  - intros H. destruct (find _ _) as [t0|] eqn:E; simpl in H; [subst t0 | lia].
    apply find_seq_some in E as (_ & Hhit & Hlt). split.
    + apply tier_hit_true. exact Hhit.
    + intros t' Ht'. apply tier_hit_false, Hlt. exact Ht'.
  - intros [Hhit Hlt]. rewrite (find_seq_first _ 6 1 t); [reflexivity | lia | |].
    + apply tier_hit_true. exact Hhit.
    + intros t' Ht'. apply tier_hit_false, Hlt. exact Ht'.
Qed.

(** [classify_tier] returns 0 exactly when no tier's check succeeds. *)
Lemma classify_tier_zero tm title grade :
  classify_tier tm title grade = 0 <->
  forall t, 1 <= t <= 6 -> ~ keyword_match tm t title /\ ~ grade_match tm t grade.
Proof.
  unfold classify_tier. rewrite classify_loop_find. split.
  - intros H t Ht. apply tier_hit_false.
    destruct (find _ _) as [t0|] eqn:E; simpl in H.
    + apply find_seq_some in E as (Hr & _ & _). lia.
    + apply (find_none _ _ E t). apply in_seq. lia.
  - intros H. rewrite find_seq_none; [reflexivity|].
    intros t Ht. apply tier_hit_false, H. lia.
Qed.

(** The result is a tier number or 0. *)
Lemma classify_tier_range tm title grade : classify_tier tm title grade <= 6.
Proof.
  unfold classify_tier. rewrite classify_loop_find.
  destruct (find _ _) as [t0|] eqn:E; simpl; [|lia].
  apply find_seq_some in E as (Hr & _ & _). lia.
Qed.

(** No grade code of the default table is the empty string. *)
Lemma default_grade_empty t :
  1 <= t <= 6 -> ~ grade_match DEFAULT_TIER_KEYWORDS t "".
Proof.
  intros Ht. unfold grade_match. rewrite <- mem_spec.
  destruct t as [|[|[|[|[|[|[|t]]]]]]]; try lia; vm_compute; discriminate.
Qed.

End TierFacts.

Section TitleFacts.
Import PyStr LinkedIn.

Lemma classify_title_find title :
  classify_title title =
  if is_empty title then 0
  else default 0 (find (fun t => any_in (tier_keywords t) (" " +:+ lower title +:+ " "))
                       (seq 1 6)).
Proof.
  unfold classify_title. destruct (is_empty title); [reflexivity|].
  cbn [seq find tier_keywords].
  repeat match goal with
         | |- context [any_in ?l ?s] => destruct (any_in l s); cbn [default]; try reflexivity
         end.
Qed.

(** No keyword of [classify_title] occurs in the padding alone. *)
Lemma no_keyword_in_padding t : 1 <= t <= 6 -> any_in (tier_keywords t) "  " = false.
Proof.
  intros Ht. destruct t as [|[|[|[|[|[|[|t]]]]]]]; try lia; vm_compute; reflexivity.
Qed.

Lemma title_hit_true t title :
  any_in (tier_keywords t) (" " +:+ lower title +:+ " ") = true <-> keyword_match t title.
Proof. unfold keyword_match. apply any_in_spec. Qed.

Lemma title_hit_false t title :
  any_in (tier_keywords t) (" " +:+ lower title +:+ " ") = false <-> ~ keyword_match t title.
Proof. rewrite <- not_true_iff_false, title_hit_true. reflexivity. Qed.

Lemma keyword_match_nonempty t title : 1 <= t <= 6 -> keyword_match t title -> title <> "".
Proof.
  intros Ht H ->. apply title_hit_true in H.
  change (" " +:+ lower "" +:+ " ") with "  " in H.
  rewrite no_keyword_in_padding in H by exact Ht. discriminate.
Qed.

(** [classify_title] returns the first tier of 1..6 one of whose keywords
    occurs in the padded lower-cased title. *)
Lemma classify_title_first title t :
  1 <= t <= 6 ->
  (classify_title title = t <->
   keyword_match t title /\ forall t', 1 <= t' < t -> ~ keyword_match t' title).
Proof.
  intros Ht. rewrite classify_title_find. split.
  - destruct (is_empty title); [lia|].
    intros H. destruct (find _ _) as [t0|] eqn:E; simpl in H; [subst t0 | lia].
    apply find_seq_some in E as (_ & Hhit & Hlt). split.
    + apply title_hit_true. exact Hhit.
    + intros t' Ht'. apply title_hit_false. apply Hlt. exact Ht'.
  - intros [Hhit Hlt].
    assert (Hne : is_empty title = false).
    { apply keyword_match_nonempty in Hhit; [|exact Ht].
      destruct title; [congruence | reflexivity]. }
    rewrite Hne, (find_seq_first _ 6 1 t); [reflexivity | lia | |].
    + apply title_hit_true. exact Hhit.
    + intros t' Ht'. apply title_hit_false, Hlt. exact Ht'.
Qed.

Lemma classify_title_range title : classify_title title <= 6.
Proof.
  rewrite classify_title_find. destruct (is_empty title); [lia|].
  destruct (find _ _) as [t0|] eqn:E; simpl; [|lia].
  apply find_seq_some in E as (Hr & _ & _). lia.
Qed.

(** [classify_title] returns 0 exactly when no keyword of any tier occurs
    in the padded lower-cased title. *)
Lemma classify_title_zero title :
  classify_title title = 0 <-> forall t, 1 <= t <= 6 -> ~ keyword_match t title.
Proof.
  split.
  - intros H t Ht Hm. pose proof (keyword_match_nonempty t title Ht Hm) as Hne.
    rewrite classify_title_find in H.
    destruct title as [|c title]; [congruence|]. cbn [is_empty] in H.
    destruct (find _ _) as [t0|] eqn:E; simpl in H.
    + apply find_seq_some in E as (Hr & _ & _). lia.
    + apply title_hit_true in Hm.
      rewrite (find_none _ _ E t) in Hm; [discriminate | apply in_seq; lia].
  - intros H. rewrite classify_title_find. destruct (is_empty title); [reflexivity|].
    rewrite find_seq_none; [reflexivity|].
    intros t Ht. apply title_hit_false, H. lia.
Qed.

End TitleFacts.

Section TierClaims.
Import PyStr.

Lemma keyword_match_bool tm t title :
  any_in (DataAdapter.tier_list tm t "keywords") (lower title) = true <->
  DataAdapter.keyword_match tm t title.
Proof. unfold DataAdapter.keyword_match. apply any_in_spec. Qed.

Lemma grade_match_bool tm t grade :
  mem (upper grade) (DataAdapter.tier_list tm t "grades") = true <->
  DataAdapter.grade_match tm t grade.
Proof. unfold DataAdapter.grade_match. apply mem_spec. Qed.

Lemma tier_list_single_keywords t kw :
  DataAdapter.tier_list (DataAdapter.single_rule t kw) t "keywords" = [kw].
Proof.
  unfold DataAdapter.tier_list, DataAdapter.single_rule.
  rewrite lookup_singleton_eq. reflexivity.
Qed.

Lemma tier_list_single_grades t kw :
  DataAdapter.tier_list (DataAdapter.single_rule t kw) t "grades" = [].
Proof.
  unfold DataAdapter.tier_list, DataAdapter.single_rule.
  rewrite lookup_singleton_eq. reflexivity.
Qed.

Lemma tier_list_single_other t t' kw key :
  t <> t' -> DataAdapter.tier_list (DataAdapter.single_rule t kw) t' key = [].
Proof.
  intros Hne. unfold DataAdapter.tier_list, DataAdapter.single_rule.
  rewrite lookup_singleton_ne by exact Hne. reflexivity.
Qed.

Lemma single_rule_no_other t t' kw title grade :
  t <> t' ->
  ~ DataAdapter.keyword_match (DataAdapter.single_rule t kw) t' title /\
  ~ DataAdapter.grade_match (DataAdapter.single_rule t kw) t' grade.
Proof.
  intros Hne. unfold DataAdapter.keyword_match, DataAdapter.grade_match.
  rewrite !tier_list_single_other by exact Hne. split.
  - intros [kw' [[] _]].
  - intros [].
Qed.

Lemma single_rule_match t kw title :
  DataAdapter.keyword_match (DataAdapter.single_rule t kw) t title <->
  substring_of kw (lower title).
Proof.
  unfold DataAdapter.keyword_match. rewrite tier_list_single_keywords. split.
  - intros [kw' [[<- | []] H]]. exact H.
  - intros H. exists kw. split; [left; reflexivity | exact H].
Qed.

Lemma single_rule_no_grade t kw grade :
  ~ DataAdapter.grade_match (DataAdapter.single_rule t kw) t grade.
Proof. unfold DataAdapter.grade_match. rewrite tier_list_single_grades. intros []. Qed.

Lemma tier_keywords_outside t kw : In kw (LinkedIn.tier_keywords t) -> 1 <= t <= 6.
Proof. destruct t as [|[|[|[|[|[|[|t]]]]]]]; simpl; intros H; try lia; destruct H. Qed.

End TierClaims.

(** C1 — Ascending-tier priority. When a title matches a keyword of two
    tiers t1 < t2 and no check of a tier before t1 succeeds, the result is
    t1: in [DataAdapter.classify_tier] for every rule table and grade, in
    particular under the default table when no grade is given, and in
    [classify_title]. Both functions return the first tier of 1..6 whose
    check succeeds. *)
Theorem C1_ascending_tier_priority :
  (forall tm title grade t1 t2,
      1 <= t1 -> t1 < t2 -> t2 <= 6 ->
      DataAdapter.keyword_match tm t1 title ->
      DataAdapter.keyword_match tm t2 title ->
      (forall t, 1 <= t < t1 ->
                 ~ DataAdapter.keyword_match tm t title /\ ~ DataAdapter.grade_match tm t grade) ->
      DataAdapter.classify_tier tm title grade = t1)
  /\ (forall title t1 t2,
      1 <= t1 -> t1 < t2 -> t2 <= 6 ->
      DataAdapter.keyword_match DataAdapter.DEFAULT_TIER_KEYWORDS t1 title ->
      DataAdapter.keyword_match DataAdapter.DEFAULT_TIER_KEYWORDS t2 title ->
      (forall t, 1 <= t < t1 ->
                 ~ DataAdapter.keyword_match DataAdapter.DEFAULT_TIER_KEYWORDS t title) ->
      DataAdapter.classify_tier DataAdapter.DEFAULT_TIER_KEYWORDS title "" = t1)
  /\ (forall title t1 t2,
      1 <= t1 -> t1 < t2 -> t2 <= 6 ->
      LinkedIn.keyword_match t1 title ->
      LinkedIn.keyword_match t2 title ->
      (forall t, 1 <= t < t1 -> ~ LinkedIn.keyword_match t title) ->
      LinkedIn.classify_title title = t1)
  /\ (forall tm title grade t,
      1 <= t <= 6 ->
      (DataAdapter.classify_tier tm title grade = t <->
       (DataAdapter.keyword_match tm t title \/ DataAdapter.grade_match tm t grade) /\
       forall t', 1 <= t' < t ->
                  ~ DataAdapter.keyword_match tm t' title /\ ~ DataAdapter.grade_match tm t' grade))
  /\ (forall title t,
      1 <= t <= 6 ->
      (LinkedIn.classify_title title = t <->
       LinkedIn.keyword_match t title /\
       forall t', 1 <= t' < t -> ~ LinkedIn.keyword_match t' title)).
Proof.
  split; [|split; [|split; [|split]]].
  - intros tm title grade t1 t2 H1 H12 H2 Hm1 _ Hlt.
    apply classify_tier_first; [lia|]. split; [left; exact Hm1 | exact Hlt].
  - intros title t1 t2 H1 H12 H2 Hm1 _ Hlt.
    apply classify_tier_first; [lia|]. split; [left; exact Hm1|].
    intros t Ht. split; [apply Hlt; exact Ht | apply default_grade_empty; lia].
  - intros title t1 t2 H1 H12 H2 Hm1 _ Hlt.
    apply classify_title_first; [lia|]. split; [exact Hm1 | exact Hlt].
  - intros tm title grade t Ht. apply classify_tier_first. exact Ht.
  - intros title t Ht. apply classify_title_first. exact Ht.
Qed.

Lemma C1_witness :
  DataAdapter.classify_tier DataAdapter.DEFAULT_TIER_KEYWORDS "Assistant Manager" "M1" = 4
  /\ DataAdapter.classify_tier DataAdapter.DEFAULT_TIER_KEYWORDS "Assistant Manager" "" = 4
  /\ LinkedIn.classify_title "Senior Product Manager" = 4.
Proof.
  destruct C1_ascending_tier_priority as (Hgen & Hdef & Htitle & _ & _).
  split; [|split].
  - apply (Hgen _ _ _ 4 5); try lia.
    + apply keyword_match_bool. vm_compute. reflexivity.
    + apply keyword_match_bool. vm_compute. reflexivity.
    + intros t Ht. assert (Hc : t = 1 \/ t = 2 \/ t = 3) by lia.
      destruct Hc as [-> | [-> | ->]]; split; intros H;
        (apply keyword_match_bool in H || apply grade_match_bool in H);
        vm_compute in H; discriminate.
  - apply (Hdef _ 4 5); try lia.
    + apply keyword_match_bool. vm_compute. reflexivity.
    + apply keyword_match_bool. vm_compute. reflexivity.
    + intros t Ht. assert (Hc : t = 1 \/ t = 2 \/ t = 3) by lia.
      destruct Hc as [-> | [-> | ->]]; intros H;
        apply keyword_match_bool in H; vm_compute in H; discriminate.
  - apply (Htitle _ 4 5); try lia.
    + apply title_hit_true. vm_compute. reflexivity.
    + apply title_hit_true. vm_compute. reflexivity.
    + intros t Ht. assert (Hc : t = 1 \/ t = 2 \/ t = 3) by lia.
      destruct Hc as [-> | [-> | ->]]; intros H;
        apply title_hit_true in H; vm_compute in H; discriminate.
Defined.

(** C7 — The classification vectors of the specification, under the
    default rule table: the empty title and grade give 0, "Chief Executive
    Officer" gives 2, "Independent Director" gives 1 and "Senior Manager"
    gives 4; [classify_title] gives the same four results. *)
Theorem C7_classification_vectors :
  DataAdapter.classify_tier DataAdapter.DEFAULT_TIER_KEYWORDS "" "" = 0
  /\ DataAdapter.classify_tier DataAdapter.DEFAULT_TIER_KEYWORDS "Chief Executive Officer" "" = 2
  /\ DataAdapter.classify_tier DataAdapter.DEFAULT_TIER_KEYWORDS "Independent Director" "" = 1
  /\ DataAdapter.classify_tier DataAdapter.DEFAULT_TIER_KEYWORDS "Senior Manager" "" = 4
  /\ LinkedIn.classify_title "" = 0
  /\ LinkedIn.classify_title "Chief Executive Officer" = 2
  /\ LinkedIn.classify_title "Independent Director" = 1
  /\ LinkedIn.classify_title "Senior Manager" = 4.
Proof. repeat split; vm_compute; reflexivity. Qed.

(** C3 (as stated, refuted) — The keyword test of the code is not the
    padded, lower-cased test of the specification. In [classify_tier] the
    keyword "ed" hits inside the word "certified", which the padded test
    rejects, and the upper-case keyword "CEO" misses the title "CEO", which
    the padded test accepts; under the default table "Certified Accountant"
    is tier 2 although the padded test accepts no keyword of any tier. In
    [classify_title] the unpadded literal "chairperson" hits inside
    "chairpersons". *)
Lemma C3_counterexample :
  DataAdapter.classify_tier (DataAdapter.single_rule 2 "ed") "Certified" "" = 2
  /\ Spec.pattern_matches "ed" "Certified" = false
  /\ DataAdapter.classify_tier (DataAdapter.single_rule 2 "CEO") "CEO" "" = 0
  /\ Spec.pattern_matches "CEO" "CEO" = true
  /\ DataAdapter.classify_tier DataAdapter.DEFAULT_TIER_KEYWORDS "Certified Accountant" "" = 2
  /\ forallb (fun t =>
        forallb (fun kw => negb (Spec.pattern_matches kw "Certified Accountant"))
                (DataAdapter.tier_list DataAdapter.DEFAULT_TIER_KEYWORDS t "keywords"))
        (seq 1 6) = true
  /\ LinkedIn.classify_title "Chairpersons" = 1
  /\ forallb (fun kw => negb (Spec.pattern_matches kw "Chairpersons")) LinkedIn.tier_1 = true.
Proof. repeat split; vm_compute; reflexivity. Qed.

(** C3 (amended) — Keyword matching as the code performs it. In
    [classify_tier] a keyword matches exactly when the keyword, as written
    in the rule table, is a substring of the lower-cased title: nothing is
    padded and the keyword is not lower-cased. In [classify_title] a title
    is classified exactly when some keyword literal of a tier list, with
    the spaces it is written with, is a substring of the lower-cased title
    wrapped in one leading and one trailing space. *)
Theorem C3_keyword_matching :
  (forall t kw title,
      1 <= t <= 6 ->
      (DataAdapter.classify_tier (DataAdapter.single_rule t kw) title "" = t <->
       PyStr.substring_of kw (PyStr.lower title)))
  /\ (forall t kw title,
      1 <= t <= 6 ->
      ~ PyStr.substring_of kw (PyStr.lower title) ->
      DataAdapter.classify_tier (DataAdapter.single_rule t kw) title "" = 0)
  /\ (forall title,
      LinkedIn.classify_title title <> 0 <->
      exists t kw, In kw (LinkedIn.tier_keywords t) /\
                   PyStr.substring_of kw (" " +:+ PyStr.lower title +:+ " ")).
Proof.
  split; [|split].
  - intros t kw title Ht. rewrite classify_tier_first by exact Ht. split.
    + intros [[Hk | Hg] _].
      * apply single_rule_match in Hk. exact Hk.
      * exfalso. exact (single_rule_no_grade _ _ _ Hg).
    + intros H. split.
      * left. apply single_rule_match. exact H.
      * intros t' Ht'. apply single_rule_no_other. lia.
  - intros t kw title Ht Hno. apply classify_tier_zero. intros t' Ht'.
    destruct (Nat.eq_dec t t') as [<- | Hne].
    + split; [rewrite single_rule_match; exact Hno | apply single_rule_no_grade].
    + apply single_rule_no_other. exact Hne.
  - intros title. split.
    + intros Hnz. pose proof (classify_title_range title) as Hr.
      assert (Ht : 1 <= LinkedIn.classify_title title <= 6) by lia.
      destruct (proj1 (classify_title_first title _ Ht) eq_refl) as [[kw [Hin Hsub]] _].
      exists (LinkedIn.classify_title title), kw. split; assumption.
    + intros [t [kw [Hin Hsub]]] Hz.
      pose proof (tier_keywords_outside _ _ Hin) as Ht.
      apply (proj1 (classify_title_zero title) Hz t Ht).
      exists kw. split; assumption.
Qed.

Lemma C3_witness :
  DataAdapter.classify_tier (DataAdapter.single_rule 2 "ed") "Certified" "" = 2
  /\ DataAdapter.classify_tier (DataAdapter.single_rule 2 "CEO") "CEO" "" = 0.
Proof.
  destruct C3_keyword_matching as (Hiff & Hzero & _). split.
  - apply (Hiff 2 "ed" "Certified"); [lia|]. apply contains_spec. vm_compute. reflexivity.
  - apply (Hzero 2 "CEO" "CEO"); [lia|]. intros H.
    apply contains_spec in H. vm_compute in H. discriminate.
Defined.

Section DirectorFacts.
Import PyStr DataAdapter.

Lemma classify_loop_ext tm1 tm2 s g tiers :
  (forall t, In t tiers ->
     any_in (tier_list tm1 t "keywords") s = any_in (tier_list tm2 t "keywords") s /\
     mem g (tier_list tm1 t "grades") = mem g (tier_list tm2 t "grades")) ->
  classify_loop tm1 s g tiers = classify_loop tm2 s g tiers.
Proof.
  induction tiers as [|t tiers IH]; intros H; simpl; [reflexivity|].
  destruct (H t (or_introl eq_refl)) as [-> ->].
  rewrite IH; [reflexivity|]. intros t' Ht'. apply H. right. exact Ht'.
Qed.

(** Whatever the table, a title with a Tier-1 keyword in it is tier 1. *)
Lemma tier_1_keyword_wins tm kw title grade :
  In kw (tier_list tm 1 "keywords") -> substring_of kw (lower title) ->
  classify_tier tm title grade = 1.
Proof.
  intros Hin Hsub. apply classify_tier_first; [lia|]. split.
  - left. exists kw. split; assumption.
  - intros t' Ht'. lia.
Qed.

Lemma director_in_default : In "director" (tier_list DEFAULT_TIER_KEYWORDS 1 "keywords").
Proof. vm_compute. right. left. reflexivity. Qed.

Lemma director_in_pruned : In "director" (tier_list TIER_KEYWORDS_PRUNED 1 "keywords").
Proof. vm_compute. right. left. reflexivity. Qed.

Lemma pruned_same_without_director s g :
  contains "director" s = false ->
  classify_loop DEFAULT_TIER_KEYWORDS s g (seq 1 6)
  = classify_loop TIER_KEYWORDS_PRUNED s g (seq 1 6).
Proof.
  intros Hd.
  pose proof (contains_app_r "senior " "director" s Hd) as Hsd.
  pose proof (contains_app_r "associate " "director" s Hd) as Had.
  change ("senior " +:+ "director") with "senior director" in Hsd.
  change ("associate " +:+ "director") with "associate director" in Had.
  apply classify_loop_ext. intros t Ht.
  assert (Hc : t = 1 \/ t = 2 \/ t = 3 \/ t = 4 \/ t = 5 \/ t = 6) by (apply in_seq in Ht; lia).
  destruct Hc as [-> | [-> | [-> | [-> | [-> | ->]]]]]; split; try reflexivity.
  - change (tier_list DEFAULT_TIER_KEYWORDS 3 "keywords")
      with ["vice president"; "vp "; "avp"; "associate vice president";
            "general manager"; "gm"; "senior director"; "head of"; "principal"; "evp"].
    change (tier_list TIER_KEYWORDS_PRUNED 3 "keywords")
      with ["vice president"; "vp "; "avp"; "associate vice president";
            "general manager"; "gm"; "head of"; "principal"; "evp"].
    unfold any_in. cbn [existsb]. rewrite Hsd. reflexivity.
  - change (tier_list DEFAULT_TIER_KEYWORDS 4 "keywords")
      with ["director"; "senior manager"; "manager"; "associate director";
            "program manager"; "delivery manager"; "project manager"].
    change (tier_list TIER_KEYWORDS_PRUNED 4 "keywords")
      with ["senior manager"; "manager";
            "program manager"; "delivery manager"; "project manager"].
    unfold any_in. cbn [existsb]. rewrite Hd, Had. reflexivity.
Qed.

End DirectorFacts.

(** C10 — Under the default rule table the Tier-1 keyword "director"
    decides every title whose lower-cased form contains "director": the
    result is 1 for every such title and grade, among them "Senior
    Director", "Associate Director" and "Director of Engineering". The
    Tier-3 entry "senior director" and the Tier-4 entries "director" and
    "associate director" never determine a result: the table without them
    classifies every title and grade alike. *)
Theorem C10_director_is_board :
  (forall title grade,
      PyStr.substring_of "director" (PyStr.lower title) ->
      DataAdapter.classify_tier DataAdapter.DEFAULT_TIER_KEYWORDS title grade = 1)
  /\ DataAdapter.classify_tier DataAdapter.DEFAULT_TIER_KEYWORDS "Senior Director" "" = 1
  /\ DataAdapter.classify_tier DataAdapter.DEFAULT_TIER_KEYWORDS "Associate Director" "" = 1
  /\ DataAdapter.classify_tier DataAdapter.DEFAULT_TIER_KEYWORDS "Director of Engineering" "" = 1
  /\ (forall title grade,
      DataAdapter.classify_tier DataAdapter.DEFAULT_TIER_KEYWORDS title grade
      = DataAdapter.classify_tier DataAdapter.TIER_KEYWORDS_PRUNED title grade).
Proof.
  split; [|split; [|split; [|split]]]; try (vm_compute; reflexivity).
  - intros title grade H. exact (tier_1_keyword_wins _ _ _ _ director_in_default H).
  - intros title grade.
    destruct (PyStr.contains "director" (PyStr.lower title)) eqn:E.
    + apply contains_spec in E.
      rewrite (tier_1_keyword_wins _ _ _ grade director_in_default E).
      rewrite (tier_1_keyword_wins _ _ _ grade director_in_pruned E). reflexivity.
    + unfold DataAdapter.classify_tier. apply pruned_same_without_director. exact E.
Qed.

Lemma C10_witness :
  DataAdapter.classify_tier DataAdapter.DEFAULT_TIER_KEYWORDS "Senior Director" "M3" = 1.
Proof.
  apply (proj1 C10_director_is_board "Senior Director" "M3").
  apply contains_spec. vm_compute. reflexivity.
Defined.

(* ===================================================================== *)
(** * Gender classification *)
(* ===================================================================== *)

Section GenderFacts.
Import PyStr.
Import DataAdapter (male_tokens, female_tokens).

(** [normalize_gender] without the early return: the empty string takes
    the last branch as well. *)
Lemma normalize_gender_unfold value :
  DataAdapter.normalize_gender value =
  let v := upper (strip value) in
  if mem v male_tokens then "M" else if mem v female_tokens then "F" else "O".
Proof. destruct value; reflexivity. Qed.

Lemma male_not_female v : mem v male_tokens = true -> mem v female_tokens = false.
Proof.
  intros H. apply mem_spec in H. unfold male_tokens in H. simpl in H.
  repeat (destruct H as [<- | H]; [reflexivity|]). destruct H.
Qed.

Lemma normalize_gender_cases value :
  let v := upper (strip value) in
  (In v male_tokens /\ DataAdapter.normalize_gender value = "M") \/
  (~ In v male_tokens /\ In v female_tokens /\ DataAdapter.normalize_gender value = "F") \/
  (~ In v male_tokens /\ ~ In v female_tokens /\ DataAdapter.normalize_gender value = "O").
Proof.
  rewrite normalize_gender_unfold. cbv zeta. rewrite <- !mem_spec.
  destruct (mem (upper (strip value)) male_tokens) eqn:Em.
  - left. split; reflexivity.
  - right. destruct (mem (upper (strip value)) female_tokens) eqn:Ef.
    + left. repeat split; congruence.
    + right. repeat split; congruence.
Qed.

Lemma map_gender_cases self value :
  let v := strip value in
  let males := default [] (DataAdapter.gender_values self !! "male") in
  let females := default [] (DataAdapter.gender_values self !! "female") in
  (In v males /\ DataAdapter._map_gender self value = "M") \/
  (~ In v males /\ In v females /\ DataAdapter._map_gender self value = "F") \/
  (~ In v males /\ ~ In v females /\ DataAdapter._map_gender self value = "O").
Proof.
  unfold DataAdapter._map_gender. cbv zeta. rewrite <- !mem_spec.
  destruct (mem (strip value) (default [] (DataAdapter.gender_values self !! "male"))) eqn:Em.
  - left. split; reflexivity.
  - right.
    destruct (mem (strip value) (default [] (DataAdapter.gender_values self !! "female"))) eqn:Ef.
    + left. repeat split; congruence.
    + right. repeat split; congruence.
Qed.

Lemma normalize_gender_case value :
  DataAdapter.normalize_gender (lower value) = DataAdapter.normalize_gender value /\
  DataAdapter.normalize_gender (upper value) = DataAdapter.normalize_gender value.
Proof.
  rewrite !normalize_gender_unfold. cbv zeta.
  rewrite strip_lower, upper_lower, strip_upper, upper_upper. split; reflexivity.
Qed.

Lemma female_rule_spec name :
  existsb (fun ending => endswith ending name && (3 <? String.length name)%nat)
          LinkedIn.female_endings = true <->
  exists suf, In suf LinkedIn.female_endings /\ suffix_of suf name /\ 3 < String.length name.
Proof.
  rewrite existsb_exists. split.
  - intros [suf [Hin H]]. apply andb_true_iff in H as [He Hl].
    exists suf. repeat split; [exact Hin | apply endswith_spec; exact He |].
    apply Nat.ltb_lt. exact Hl.
  - intros [suf [Hin [He Hl]]]. exists suf. split; [exact Hin|].
    apply andb_true_iff. split; [apply endswith_spec; exact He | apply Nat.ltb_lt; exact Hl].
Qed.

Lemma male_rule_spec name :
  existsb (fun ending => endswith ending name) LinkedIn.male_endings = true <->
  exists suf, In suf LinkedIn.male_endings /\ suffix_of suf name.
Proof.
  rewrite existsb_exists.
  split; intros [suf [Hin H]]; exists suf; split; auto; apply endswith_spec; exact H.
Qed.

(** [estimate_gender] without the early return: for the empty string the
    lexicon and both ending lists miss. *)
Lemma estimate_gender_unfold first_name :
  LinkedIn.estimate_gender first_name =
  let name := strip (lower first_name) in
  match LinkedIn.INDIAN_NAMES_GENDER !! name with
  | Some g => g
  | None =>
      if existsb (fun ending => endswith ending name && (3 <? String.length name)%nat)
                 LinkedIn.female_endings then "F"
      else if existsb (fun ending => endswith ending name) LinkedIn.male_endings then "M"
      else "U"
  end.
Proof. destruct first_name; [vm_compute; reflexivity | reflexivity]. Qed.

Lemma first_suffix_rule_map g n l rest name :
  Spec.first_suffix_rule (map (fun suf => (suf, g, n)) l ++ rest) name =
  if existsb (fun ending => endswith ending name && (n <? String.length name)%nat) l
  then Some g else Spec.first_suffix_rule rest name.
Proof.
  induction l as [|suf l IH]; simpl; [reflexivity|].
  destruct (endswith suf name && (n <? String.length name)%nat); simpl; [reflexivity | exact IH].
Qed.

Lemma existsb_no_threshold l name :
  is_empty name = false ->
  existsb (fun ending => endswith ending name && (0 <? String.length name)%nat) l
  = existsb (fun ending => endswith ending name) l.
Proof.
  intros H. destruct name as [|c name]; [discriminate|].
  induction l as [|suf l IH]; [reflexivity|].
  cbn [existsb]. rewrite IH. cbn [String.length Nat.ltb Nat.leb].
  rewrite andb_true_r. reflexivity.
Qed.

Lemma estimate_refines first_name :
  LinkedIn.estimate_gender first_name = Spec.estimate first_name.
Proof.
  rewrite estimate_gender_unfold. unfold Spec.estimate. cbv zeta.
  destruct (is_empty (strip (lower first_name))) eqn:E.
  - apply is_empty_true in E. rewrite E. vm_compute. reflexivity.
  - destruct (LinkedIn.INDIAN_NAMES_GENDER !! strip (lower first_name)); [reflexivity|].
    unfold Spec.suffix_rules. rewrite first_suffix_rule_map.
    destruct (existsb _ LinkedIn.female_endings); [reflexivity|].
    rewrite <- (app_nil_r (map _ LinkedIn.male_endings)), first_suffix_rule_map.
    rewrite existsb_no_threshold by exact E.
    destruct (existsb _ LinkedIn.male_endings); reflexivity.
Qed.

End GenderFacts.

(** C4 (as stated, refuted) — [CSVAdapter._map_gender] does not upper-case
    its input: under the default token lists "male" is Unknown, although
    its trimmed, upper-cased form "MALE" is an accepted male token. *)
Lemma C4_counterexample :
  DataAdapter._map_gender (DataAdapter.default_adapter ∅ None) "male" = "O"
  /\ Spec.classify_gender_token
       (default [] (DataAdapter.default_gender_values !! "male"))
       (default [] (DataAdapter.default_gender_values !! "female")) "male" = "M".
Proof. split; vm_compute; reflexivity. Qed.

(** C4 (amended) — Both gender-token classifiers are total and return one
    of "M", "F", "O". [DataAdapter.normalize_gender] trims and upper-cases
    its input and matches it against its fixed token lists, so the case of
    the input does not matter. [CSVAdapter._map_gender] only trims its
    input and matches it, case-sensitively, against the configured male
    and female lists, the male list first. In both, an input that matches
    neither list is "O"; the empty string is "O" in [normalize_gender] and,
    under the default lists, in [_map_gender]. *)
Theorem C4_gender_token :
  (forall value,
      DataAdapter.normalize_gender value = "M" \/
      DataAdapter.normalize_gender value = "F" \/
      DataAdapter.normalize_gender value = "O")
  /\ (forall value,
      DataAdapter.normalize_gender value = "M" <->
      In (PyStr.upper (PyStr.strip value)) DataAdapter.male_tokens)
  /\ (forall value,
      DataAdapter.normalize_gender value = "F" <->
      In (PyStr.upper (PyStr.strip value)) DataAdapter.female_tokens)
  /\ (forall value,
      DataAdapter.normalize_gender value = "O" <->
      ~ In (PyStr.upper (PyStr.strip value)) DataAdapter.male_tokens /\
      ~ In (PyStr.upper (PyStr.strip value)) DataAdapter.female_tokens)
  /\ (forall value,
      DataAdapter.normalize_gender (PyStr.lower value) = DataAdapter.normalize_gender value /\
      DataAdapter.normalize_gender (PyStr.upper value) = DataAdapter.normalize_gender value)
  /\ DataAdapter.normalize_gender "" = "O"
  /\ (forall self value,
      DataAdapter._map_gender self value = "M" \/
      DataAdapter._map_gender self value = "F" \/
      DataAdapter._map_gender self value = "O")
  /\ (forall self value,
      DataAdapter._map_gender self value = "M" <->
      In (PyStr.strip value) (default [] (DataAdapter.gender_values self !! "male")))
  /\ (forall self value,
      DataAdapter._map_gender self value = "F" <->
      ~ In (PyStr.strip value) (default [] (DataAdapter.gender_values self !! "male")) /\
      In (PyStr.strip value) (default [] (DataAdapter.gender_values self !! "female")))
  /\ (forall self value,
      DataAdapter._map_gender self value = "O" <->
      ~ In (PyStr.strip value) (default [] (DataAdapter.gender_values self !! "male")) /\
      ~ In (PyStr.strip value) (default [] (DataAdapter.gender_values self !! "female")))
  /\ (forall fm rows,
      DataAdapter._map_gender (DataAdapter.default_adapter fm rows) "" = "O").
Proof.
  repeat match goal with |- _ /\ _ => split end;
    try (intros value;
         destruct (normalize_gender_cases value) as [[Hm E] | [(Hm & Hf & E) | (Hm & Hf & E)]];
         pose proof (male_not_female (PyStr.upper (PyStr.strip value))) as Hdis;
         rewrite !mem_spec, <- not_true_iff_false, mem_spec in Hdis;
         rewrite E; try tauto;
         solve [ split; [discriminate | tauto]
               | split; [tauto | reflexivity]
               | split; [discriminate | intros H; tauto]
               | split; [reflexivity | tauto] ]);
    try (intros self value;
         destruct (map_gender_cases self value) as [[Hm E] | [(Hm & Hf & E) | (Hm & Hf & E)]];
         rewrite E; try tauto;
         solve [ split; [discriminate | tauto]
               | split; [tauto | reflexivity]
               | split; [reflexivity | tauto] ]).
  - intros value. apply normalize_gender_case.
  - reflexivity.
  - intros fm rows. vm_compute. reflexivity.
Qed.

Lemma C4_witness :
  DataAdapter.normalize_gender " female " = "F"
  /\ DataAdapter._map_gender (DataAdapter.default_adapter ∅ None) "male" = "O".
Proof.
  destruct C4_gender_token as (_ & _ & HF & _ & _ & _ & _ & _ & _ & HO & _). split.
  - apply (HF " female "). vm_compute. tauto.
  - apply (HO (DataAdapter.default_adapter ∅ None) "male").
    split; vm_compute; intros H; repeat (destruct H as [H | H]; [discriminate H|]); exact H.
Defined.

(** C5 — Name inference. [estimate_gender] lower-cases and trims the first
    name; the empty string, and every name that is empty once trimmed, is
    "U"; a name in the lexicon gets the lexicon's gender at once; otherwise
    the female endings are tried before the male endings, a female ending
    counting only when the name is longer than its threshold of 3 (the male
    endings carry no threshold); with no ending matching the result is "U".
    The function is the specification's four-step procedure over the
    suffix triples. *)
Theorem C5_name_inference :
  LinkedIn.estimate_gender "" = "U"
  /\ (forall first_name,
      PyStr.strip (PyStr.lower first_name) = "" -> LinkedIn.estimate_gender first_name = "U")
  /\ (forall first_name g,
      LinkedIn.INDIAN_NAMES_GENDER !! PyStr.strip (PyStr.lower first_name) = Some g ->
      LinkedIn.estimate_gender first_name = g)
  /\ (forall first_name,
      LinkedIn.INDIAN_NAMES_GENDER !! PyStr.strip (PyStr.lower first_name) = None ->
      (LinkedIn.estimate_gender first_name = "F" <->
       exists suf, In suf LinkedIn.female_endings /\
                   PyStr.suffix_of suf (PyStr.strip (PyStr.lower first_name)) /\
                   3 < String.length (PyStr.strip (PyStr.lower first_name)))
      /\ (LinkedIn.estimate_gender first_name = "M" <->
          ~ (exists suf, In suf LinkedIn.female_endings /\
                         PyStr.suffix_of suf (PyStr.strip (PyStr.lower first_name)) /\
                         3 < String.length (PyStr.strip (PyStr.lower first_name))) /\
          exists suf, In suf LinkedIn.male_endings /\
                      PyStr.suffix_of suf (PyStr.strip (PyStr.lower first_name)))
      /\ (LinkedIn.estimate_gender first_name = "U" <->
          ~ (exists suf, In suf LinkedIn.female_endings /\
                         PyStr.suffix_of suf (PyStr.strip (PyStr.lower first_name)) /\
                         3 < String.length (PyStr.strip (PyStr.lower first_name))) /\
          ~ (exists suf, In suf LinkedIn.male_endings /\
                         PyStr.suffix_of suf (PyStr.strip (PyStr.lower first_name)))))
  /\ (forall first_name, LinkedIn.estimate_gender first_name = Spec.estimate first_name).
Proof.
  split; [reflexivity|]. split; [|split; [|split]].
  - intros first_name E. rewrite estimate_gender_unfold. cbv zeta. rewrite E.
    vm_compute. reflexivity.
  - intros first_name g E. rewrite estimate_gender_unfold. cbv zeta. rewrite E. reflexivity.
  - intros first_name E. rewrite estimate_gender_unfold. cbv zeta. rewrite E.
    rewrite <- female_rule_spec, <- male_rule_spec.
    destruct (existsb _ LinkedIn.female_endings).
    + repeat split; try reflexivity; try discriminate; intros [H _]; congruence.
    + destruct (existsb _ LinkedIn.male_endings).
      * repeat split; try reflexivity; try discriminate.
        -- intros [_ H]. congruence.
      * repeat split; try reflexivity; try discriminate.
        -- intros [_ H]. discriminate.
  - exact estimate_refines.
Qed.

Lemma C5_witness :
  LinkedIn.estimate_gender "  " = "U"
  /\ LinkedIn.estimate_gender " Priya" = "F"
  /\ LinkedIn.estimate_gender "Lakshmi" = "F"
  /\ LinkedIn.estimate_gender "Ian" = "M"
  /\ LinkedIn.estimate_gender "Xyzzy" = "U".
Proof.
  destruct C5_name_inference as (_ & Hblank & Hlex & Hsuf & _).
  split; [|split; [|split; [|split]]].
  - apply (Hblank "  "). reflexivity.
  - apply (Hlex " Priya" "F"). vm_compute. reflexivity.
  - apply (proj1 (Hsuf "Lakshmi" ltac:(vm_compute; reflexivity))).
    apply female_rule_spec. vm_compute. reflexivity.
  - apply (proj1 (proj2 (Hsuf "Ian" ltac:(vm_compute; reflexivity)))). split.
    + intros H. apply female_rule_spec in H. vm_compute in H. discriminate.
    + apply male_rule_spec. vm_compute. reflexivity.
  - apply (proj2 (proj2 (Hsuf "Xyzzy" ltac:(vm_compute; reflexivity)))). split.
    + intros H. apply female_rule_spec in H. vm_compute in H. discriminate.
    + intros H. apply male_rule_spec in H. vm_compute in H. discriminate.
Defined.

(* ===================================================================== *)
(** * Record normalisation in [CSVAdapter.fetch_employees] *)
(* ===================================================================== *)

Section FetchFacts.
Import DataAdapter.

Lemma fetch_step_app self employees row :
  fetch_step self employees row =
  (employees ++ (if (0 <? row_tier self row)%nat then [row_employee self row] else []))%list.
Proof.
  unfold fetch_step. cbn [tier row_employee].
  destruct (0 <? row_tier self row)%nat; [reflexivity | rewrite app_nil_r; reflexivity].
Qed.

Lemma fetch_fold self rows employees :
  fold_left (fetch_step self) rows employees =
  (employees ++ map (row_employee self)
                    (List.filter (fun row => (0 <? row_tier self row)%nat) rows))%list.
Proof.
  revert employees. induction rows as [|row rows IH]; intros employees; simpl.
  - rewrite app_nil_r. reflexivity.
  - rewrite IH, fetch_step_app.
    destruct (0 <? row_tier self row)%nat; simpl.
    + rewrite <- app_assoc. reflexivity.
    + rewrite app_nil_r. reflexivity.
Qed.

Lemma fetch_rows_filter self rows :
  fetch_rows self rows =
  map (row_employee self) (List.filter (fun row => (0 <? row_tier self row)%nat) rows).
Proof. unfold fetch_rows. rewrite fetch_fold. reflexivity. Qed.

Lemma row_tier_range self row : row_tier self row <= 6.
Proof. unfold row_tier. apply classify_tier_range. Qed.

Lemma row_get_insert_missing row c col :
  row !! c = None -> row_get (<[c := ""]> row) col = row_get row col.
Proof.
  intros Hc. unfold row_get. destruct col as [c'|]; [|reflexivity]. simpl.
  destruct (decide (c = c')) as [<- | Hne].
  - rewrite lookup_insert_eq, Hc. reflexivity.
  - rewrite lookup_insert_ne by exact Hne. reflexivity.
Qed.

Lemma field_insert_missing row c col :
  row !! c = None -> field (<[c := ""]> row) col = field row col.
Proof.
  intros Hc. unfold field. rewrite row_get_insert_missing by exact Hc. reflexivity.
Qed.

Lemma row_tier_insert_missing self row c :
  row !! c = None -> row_tier self (<[c := ""]> row) = row_tier self row.
Proof. intros Hc. unfold row_tier. rewrite !field_insert_missing by exact Hc. reflexivity. Qed.

Lemma row_employee_insert_missing self row c :
  row !! c = None -> row_employee self (<[c := ""]> row) = row_employee self row.
Proof.
  intros Hc. unfold row_employee.
  rewrite row_tier_insert_missing, !field_insert_missing, row_get_insert_missing by exact Hc.
  reflexivity.
Qed.

Lemma field_missing row c : row !! c = None -> field row (Some c) = "".
Proof.
  intros Hc. unfold field, row_get. simpl. rewrite Hc.
  destruct (negb (PyStr.is_empty c)); reflexivity.
Qed.

End FetchFacts.

(** C6 — Drop if and only if unclassifiable. One iteration of
    [fetch_employees] appends a record exactly when [classify_tier] of the
    row's title and grade is not 0, and leaves the list as it was when it
    is 0; the result of [fetch_employees] is the records of the rows with a
    non-zero tier, in order, each carrying that tier, and every record
    returned has a tier in 1..6. *)
Theorem C6_drop_iff_unclassifiable :
  (forall self employees row,
      DataAdapter.row_tier self row <> 0 ->
      DataAdapter.fetch_step self employees row
      = (employees ++ [DataAdapter.row_employee self row])%list)
  /\ (forall self employees row,
      DataAdapter.row_tier self row = 0 ->
      DataAdapter.fetch_step self employees row = employees)
  /\ (forall self row,
      DataAdapter.tier (DataAdapter.row_employee self row)
      = DataAdapter.classify_tier (DataAdapter.tier_mapping self)
          (DataAdapter.field row (DataAdapter.field_mapping self !! "title"))
          (DataAdapter.field row (DataAdapter.field_mapping self !! "grade")))
  /\ (forall self rows,
      DataAdapter.df self = Some rows ->
      DataAdapter.fetch_employees self
      = map (DataAdapter.row_employee self)
            (List.filter (fun row => negb (DataAdapter.row_tier self row =? 0)%nat) rows))
  /\ (forall self e,
      In e (DataAdapter.fetch_employees self) -> 1 <= DataAdapter.tier e <= 6).
Proof.
  assert (Hfilter : forall self rows,
             List.filter (fun row => (0 <? DataAdapter.row_tier self row)%nat) rows
             = List.filter (fun row => negb (DataAdapter.row_tier self row =? 0)%nat) rows).
  { intros self rows. apply List.filter_ext. intros row.
    destruct (DataAdapter.row_tier self row); reflexivity. }
  split; [|split; [|split; [|split]]].
  - intros self employees row H. rewrite fetch_step_app.
    destruct (DataAdapter.row_tier self row); [congruence | reflexivity].
  - intros self employees row H. rewrite fetch_step_app, H. apply app_nil_r.
  - intros self row. reflexivity.
  - intros self rows H. unfold DataAdapter.fetch_employees. rewrite H.
    rewrite fetch_rows_filter, Hfilter. reflexivity.
  - intros self e. unfold DataAdapter.fetch_employees.
    destruct (DataAdapter.df self) as [rows|]; [|intros []].
    rewrite fetch_rows_filter. intros H. apply in_map_iff in H as [row [<- H]].
    apply List.filter_In in H as [_ H]. apply Nat.ltb_lt in H.
    pose proof (row_tier_range self row). cbn [DataAdapter.tier DataAdapter.row_employee]. lia.
Qed.

Lemma C6_witness :
  DataAdapter.fetch_step Samples.adapter [] {[ "title" := "CEO"; "gender" := "M" ]}
  = [ {| DataAdapter.gender := "M"; DataAdapter.tier := 2; DataAdapter.is_active := true;
         DataAdapter.tenure_band := None; DataAdapter.department_type := None |} ]
  /\ DataAdapter.fetch_step Samples.adapter []
       {[ "title" := "Xyz Unknown Role"; "gender" := "M" ]} = []
  /\ DataAdapter.fetch_employees Samples.adapter
     = [ {| DataAdapter.gender := "F"; DataAdapter.tier := 6; DataAdapter.is_active := true;
            DataAdapter.tenure_band := None; DataAdapter.department_type := None |};
         {| DataAdapter.gender := "M"; DataAdapter.tier := 2; DataAdapter.is_active := true;
            DataAdapter.tenure_band := None; DataAdapter.department_type := None |} ]
  /\ 1 <= 2 <= 6.
Proof.
  destruct C6_drop_iff_unclassifiable as (Hkeep & Hdrop & _ & Hall & Hrange).
  split; [|split; [|split]].
  - rewrite Hkeep; [vm_compute; reflexivity | vm_compute; discriminate].
  - apply Hdrop. vm_compute. reflexivity.
  - rewrite (Hall Samples.adapter Samples.rows eq_refl). vm_compute. reflexivity.
  - apply (Hrange Samples.adapter
             {| DataAdapter.gender := "M"; DataAdapter.tier := 2; DataAdapter.is_active := true;
                DataAdapter.tenure_band := None; DataAdapter.department_type := None |}).
    vm_compute. right. left. reflexivity.
Defined.

(* ===================================================================== *)
(** * Aggregation in the card loop *)
(* ===================================================================== *)

Section AggregateFacts.
Import PyStr LinkedIn.
Local Open Scope Z_scope.

Lemma total_bump g c : total (bump g c) = total c + 1.
Proof.
  unfold bump, total.
  destruct (String.eqb g "M"); [simpl; lia|].
  destruct (String.eqb g "F"); simpl; lia.
Qed.

(** The three shapes of an increment. *)
Lemma bump_shape g c :
  (g = "M" /\ bump g c = {| male := male c + 1; female := female c; unknown := unknown c |})
  \/ (g = "F" /\ bump g c = {| male := male c; female := female c + 1; unknown := unknown c |})
  \/ (g <> "M" /\ g <> "F" /\
      bump g c = {| male := male c; female := female c; unknown := unknown c + 1 |}).
Proof.
  unfold bump. destruct (String.eqb_spec g "M") as [-> | HM]; [left; split; reflexivity|].
  destruct (String.eqb_spec g "F") as [-> | HF]; [right; left; split; reflexivity|].
  right. right. repeat split; assumption.
Qed.

Lemma tally_totals r g t :
  total_profiles_analyzed (tally r g t) = total_profiles_analyzed r + 1 /\
  bucket_sum (tally r g t) = bucket_sum r + (if (t =? 0)%nat || (6 <? t)%nat then 0 else 1).
Proof.
  unfold tally.
  destruct t as [|[|[|[|[|[|[|t]]]]]]]; cbn [tier_map]; unfold bucket_sum; simpl;
    rewrite ?total_bump; split; lia.
Qed.

Lemma tally_buckets r g t t' :
  tier_map (tally r g t) t' =
  if (t =? t')%nat then bump g <$> tier_map r t else tier_map r t'.
Proof.
  unfold tally.
  destruct t as [|[|[|[|[|[|[|t]]]]]]], t' as [|[|[|[|[|[|[|t']]]]]]]; try reflexivity.
  cbn [tier_map Nat.eqb]. destruct (t =? t')%nat; reflexivity.
Qed.

Lemma tier_map_some r t : (1 <= t <= 6)%nat <-> is_Some (tier_map r t).
Proof.
  destruct t as [|[|[|[|[|[|[|t]]]]]]]; simpl; split; intros H;
    try lia; try (eexists; reflexivity); destruct H; discriminate.
Qed.

Lemma add_profile_tally r name title r' :
  add_profile r name title = Some r' ->
  exists first_name,
    (if is_empty name then Some "" else first_word name) = Some first_name /\
    r' = tally r (estimate_gender first_name) (classify_title title).
Proof.
  unfold add_profile.
  destruct (if is_empty name then Some "" else first_word name) as [fn|]; simpl; [|discriminate].
  intros [= <-]. exists fn. split; reflexivity.
Qed.

Lemma read_card_stripped c name title :
  read_card c = Some (name, title) -> exists s, name = strip s.
Proof.
  unfold read_card. destruct (title_text c) as [nt|]; simpl; [|discriminate].
  destruct (primary_subtitle c); simpl; [|discriminate].
  intros [= <- _]. eexists. reflexivity.
Qed.

(** A card that can be read is always counted: its name is stripped, so
    taking the first word of a name that is not empty cannot fail. *)
Lemma try_card_readable r c name title :
  read_card c = Some (name, title) ->
  exists first_name,
    try_card r c = Some (tally r (estimate_gender first_name) (classify_title title)).
Proof.
  intros H. destruct (read_card_stripped _ _ _ H) as [s ->].
  unfold try_card. rewrite H. simpl. unfold add_profile.
  destruct (is_empty (strip s)) eqn:E; simpl.
  - exists "". reflexivity.
  - destruct (first_word_strip s E) as [fn Hfn]. rewrite Hfn. simpl.
    exists fn. reflexivity.
Qed.

Lemma process_card_totals r c :
  total_profiles_analyzed (process_card r c)
  = total_profiles_analyzed r + (if is_readable c then 1 else 0) /\
  bucket_sum (process_card r c)
  = bucket_sum r + (if is_readable c then 1 else 0) - (if is_unclassifiable c then 1 else 0).
Proof.
  unfold process_card, is_readable, is_unclassifiable, card_tier.
  destruct (read_card c) as [[name title]|] eqn:E.
  - destruct (try_card_readable r c name title E) as [fn ->]. cbn [from_option id mbind option_bind].
    destruct (tally_totals r (estimate_gender fn) (classify_title title)) as [-> ->].
    pose proof (classify_title_range title) as Hr.
    destruct (classify_title title) as [|[|[|[|[|[|[|t]]]]]]]; simpl; split; lia.
  - unfold try_card. rewrite E. simpl. split; lia.
Qed.

Lemma readable_cons c cards :
  readable (c :: cards) = (if is_readable c then 1 else 0) + readable cards.
Proof. unfold readable. simpl. destruct (is_readable c); simpl length; lia. Qed.

Lemma unclassifiable_cons c cards :
  unclassifiable (c :: cards) = (if is_unclassifiable c then 1 else 0) + unclassifiable cards.
Proof. unfold unclassifiable. simpl. destruct (is_unclassifiable c); simpl length; lia. Qed.

Lemma process_cards_totals cards r :
  total_profiles_analyzed (process_cards r cards)
  = total_profiles_analyzed r + readable cards /\
  bucket_sum (process_cards r cards)
  = bucket_sum r + (readable cards - unclassifiable cards).
Proof.
  revert r. induction cards as [|c cards IH]; intros r.
  - unfold readable, unclassifiable. simpl. split; lia.
  - unfold process_cards in *. cbn [fold_left].
    destruct (IH (process_card r c)) as [-> ->].
    destruct (process_card_totals r c) as [-> ->].
    rewrite readable_cons, unclassifiable_cons. split; lia.
Qed.

Lemma process_cards_skip r pre c post :
  read_card c = None ->
  process_cards r (pre ++ c :: post) = process_cards r (pre ++ post).
Proof.
  intros H. unfold process_cards. rewrite !fold_left_app. cbn [fold_left].
  unfold process_card at 2. unfold try_card. rewrite H. reflexivity.
Qed.

End AggregateFacts.

(** C2 (as stated, refuted) — [total_profiles_analyzed] also counts the
    profiles whose title is tier 0. A batch of one readable card with an
    unclassifiable title (N = 1, M = 1) leaves the six buckets empty, but
    the count of analysed profiles is 1, not N - M = 0. *)
Lemma C2_counterexample :
  LinkedIn.readable [Samples.card_unknown_role] = 1%Z
  /\ LinkedIn.unclassifiable [Samples.card_unknown_role] = 1%Z
  /\ LinkedIn.bucket_sum
       (LinkedIn.process_cards Samples.fresh [Samples.card_unknown_role]) = 0%Z
  /\ LinkedIn.total_profiles_analyzed
       (LinkedIn.process_cards Samples.fresh [Samples.card_unknown_role]) = 1%Z
  /\ LinkedIn.total_profiles_analyzed
       (LinkedIn.process_cards Samples.fresh [Samples.card_unknown_role])
     <> (LinkedIn.readable [Samples.card_unknown_role]
         - LinkedIn.unclassifiable [Samples.card_unknown_role])%Z.
Proof. repeat split; vm_compute; congruence. Qed.

(** C2 (amended) — Aggregation totals. After a batch of N readable cards of
    which M have an unclassifiable title (tier 0), the sum over the six
    buckets of male + female + unknown has grown by N - M, and
    [total_profiles_analyzed] has grown by N: it counts every profile that
    was read, classified or not. A profile of tier t in 1..6 increments
    exactly one gender counter of the bucket of tier t by one and leaves
    the five other buckets as they were; a profile of tier 0 changes no
    bucket. *)
Theorem C2_aggregation_totals :
  (forall result cards,
      LinkedIn.total_profiles_analyzed (LinkedIn.process_cards result cards)
      = (LinkedIn.total_profiles_analyzed result + LinkedIn.readable cards)%Z
      /\ LinkedIn.bucket_sum (LinkedIn.process_cards result cards)
         = (LinkedIn.bucket_sum result
            + (LinkedIn.readable cards - LinkedIn.unclassifiable cards))%Z)
  /\ (forall name date cards,
      LinkedIn.total_profiles_analyzed
        (LinkedIn.process_cards (LinkedIn.new_result name date) cards)
      = LinkedIn.readable cards
      /\ LinkedIn.bucket_sum (LinkedIn.process_cards (LinkedIn.new_result name date) cards)
         = (LinkedIn.readable cards - LinkedIn.unclassifiable cards)%Z)
  /\ (forall result name title result',
      LinkedIn.add_profile result name title = Some result' ->
      exists first_name,
        (if PyStr.is_empty name then Some "" else PyStr.first_word name) = Some first_name /\
        forall t,
          LinkedIn.tier_map result' t =
          if (LinkedIn.classify_title title =? t)%nat
          then LinkedIn.bump (LinkedIn.estimate_gender first_name) <$> LinkedIn.tier_map result t
          else LinkedIn.tier_map result t)
  /\ (forall g c,
      (g = "M" /\
       LinkedIn.bump g c = {| LinkedIn.male := LinkedIn.male c + 1;
                              LinkedIn.female := LinkedIn.female c;
                              LinkedIn.unknown := LinkedIn.unknown c |})
      \/ (g = "F" /\
          LinkedIn.bump g c = {| LinkedIn.male := LinkedIn.male c;
                                 LinkedIn.female := LinkedIn.female c + 1;
                                 LinkedIn.unknown := LinkedIn.unknown c |})
      \/ (g <> "M" /\ g <> "F" /\
          LinkedIn.bump g c = {| LinkedIn.male := LinkedIn.male c;
                                 LinkedIn.female := LinkedIn.female c;
                                 LinkedIn.unknown := LinkedIn.unknown c + 1 |}))
  /\ (forall result title g,
      LinkedIn.classify_title title = 0 ->
      LinkedIn.tier_map result (LinkedIn.classify_title title) = None
      /\ LinkedIn.bucket_sum (LinkedIn.tally result g (LinkedIn.classify_title title))
         = LinkedIn.bucket_sum result
      /\ forall t, LinkedIn.tier_map (LinkedIn.tally result g (LinkedIn.classify_title title)) t
                   = LinkedIn.tier_map result t).
Proof.
  split; [|split; [|split; [|split]]].
  - intros result cards. apply process_cards_totals.
  - intros name date cards.
    destruct (process_cards_totals cards (LinkedIn.new_result name date)) as [-> ->].
    split; [cbn [LinkedIn.total_profiles_analyzed LinkedIn.new_result]; lia|].
    change (LinkedIn.bucket_sum (LinkedIn.new_result name date)) with 0%Z. lia.
  - intros result name title result' H.
    destruct (add_profile_tally _ _ _ _ H) as [fn [Hfn ->]].
    exists fn. split; [exact Hfn|]. intros t. rewrite tally_buckets.
    destruct (Nat.eqb_spec (LinkedIn.classify_title title) t) as [<- | _]; reflexivity.
  - intros g c. apply bump_shape.
  - intros result title g Ht. rewrite Ht. split; [reflexivity|]. split.
    + destruct (tally_totals result g 0) as [_ ->]. simpl. lia.
    + intros t. rewrite tally_buckets. destruct t; reflexivity.
Qed.

Lemma C2_witness :
  LinkedIn.tier_map
    (LinkedIn.tally Samples.fresh (LinkedIn.estimate_gender "Rahul") (LinkedIn.classify_title "CEO"))
    2
  = Some {| LinkedIn.male := 1; LinkedIn.female := 0; LinkedIn.unknown := 0 |}
  /\ LinkedIn.bucket_sum
       (LinkedIn.tally Samples.fresh "F" (LinkedIn.classify_title "Xyz Unknown Role")) = 0%Z.
Proof.
  destruct C2_aggregation_totals as (_ & _ & Hone & _ & Hzero). split.
  - destruct (Hone Samples.fresh "Rahul Verma" "CEO" _ eq_refl) as [fn [Hfn Ht]].
    assert (Efn : fn = "Rahul") by (vm_compute in Hfn; congruence). subst fn.
    refine (eq_trans (Ht 2) _). vm_compute. reflexivity.
  - destruct (Hzero Samples.fresh "Xyz Unknown Role" "F" ltac:(vm_compute; reflexivity))
      as (_ & -> & _).
    vm_compute. reflexivity.
Defined.

(** C9 — Malformed-record tolerance. In [fetch_employees] a mapped column
    that the row does not have reads as the empty string: the row is
    processed exactly as the row with that column set to "". Under the
    default rule table a row whose title and grade both read as "" is
    tier 0 and is dropped like any unclassifiable row, and dropping it
    leaves the records of the other rows as they are. In the card loop a
    card that cannot be read is skipped and the rest of the batch is
    processed as if it had not been there. *)
Theorem C9_malformed_record_tolerance :
  (forall row c, row !! c = None -> DataAdapter.field row (Some c) = "")
  /\ (forall self row c,
      row !! c = None ->
      DataAdapter.row_employee self (<[c := ""]> row) = DataAdapter.row_employee self row)
  /\ (forall self employees row c,
      row !! c = None ->
      DataAdapter.fetch_step self employees (<[c := ""]> row)
      = DataAdapter.fetch_step self employees row)
  /\ (forall fm rows employees row,
      DataAdapter.field row (fm !! "title") = "" ->
      DataAdapter.field row (fm !! "grade") = "" ->
      DataAdapter.fetch_step (DataAdapter.default_adapter fm rows) employees row = employees)
  /\ (forall self pre row post,
      DataAdapter.row_tier self row = 0 ->
      DataAdapter.fetch_rows self (pre ++ row :: post)
      = DataAdapter.fetch_rows self (pre ++ post))
  /\ (forall self pre row post,
      DataAdapter.fetch_rows self (pre ++ row :: post)
      = (DataAdapter.fetch_rows self pre ++ DataAdapter.fetch_rows self [row]
         ++ DataAdapter.fetch_rows self post)%list)
  /\ (forall result pre c post,
      LinkedIn.read_card c = None ->
      LinkedIn.process_cards result (pre ++ c :: post)
      = LinkedIn.process_cards result (pre ++ post)).
Proof.
  split; [|split; [|split; [|split; [|split; [|split]]]]].
  - intros row c H. apply field_missing. exact H.
  - intros self row c H. apply row_employee_insert_missing. exact H.
  - intros self employees row c H. unfold DataAdapter.fetch_step.
    rewrite row_employee_insert_missing by exact H. reflexivity.
  - intros fm rows employees row Ht Hg. rewrite fetch_step_app.
    unfold DataAdapter.row_tier. cbn [DataAdapter.field_mapping DataAdapter.default_adapter].
    rewrite Ht, Hg. cbn [DataAdapter.tier_mapping].
    change (DataAdapter.classify_tier DataAdapter.DEFAULT_TIER_KEYWORDS "" "") with 0.
    apply app_nil_r.
  - intros self pre row post H. rewrite !fetch_rows_filter, !List.filter_app.
    cbn [List.filter]. rewrite H. reflexivity.
  - intros self pre row post. rewrite !fetch_rows_filter, !List.filter_app, !map_app.
    cbn [List.filter]. destruct (0 <? DataAdapter.row_tier self row)%nat; reflexivity.
  - intros result pre c post H. apply process_cards_skip. exact H.
Qed.

Lemma C9_witness :
  DataAdapter.fetch_step Samples.adapter [] Samples.row_without_title = []
  /\ DataAdapter.row_employee Samples.adapter (<["title" := ""]> Samples.row_without_title)
     = DataAdapter.row_employee Samples.adapter Samples.row_without_title
  /\ LinkedIn.process_cards Samples.fresh ([Samples.card_ceo] ++ Samples.card_broken :: [Samples.card_ceo])
     = LinkedIn.process_cards Samples.fresh ([Samples.card_ceo] ++ [Samples.card_ceo]).
Proof.
  destruct C9_malformed_record_tolerance as (_ & Hrow & _ & Hdrop & _ & _ & Hskip).
  split; [|split].
  - apply (Hdrop Samples.mapping (Some Samples.rows) [] Samples.row_without_title);
      vm_compute; reflexivity.
  - apply (Hrow Samples.adapter Samples.row_without_title "title"). vm_compute. reflexivity.
  - apply (Hskip Samples.fresh [Samples.card_ceo] Samples.card_broken [Samples.card_ceo]).
    reflexivity.
Defined.

(** C8 (as stated, refuted) — [female_pct] is not female / (male + female)
    * 100 but that value rounded to one decimal: for two men and one woman
    it is 33.3, below the unrounded 33.33333333333333. *)
Lemma C8_counterexample :
  LinkedIn.female_pct Samples.two_to_one = Some (LinkedIn.PyFloat 0x1.0a66666666666p+5%float)
  /\ LinkedIn.female_pct_unrounded Samples.two_to_one
     = Some (LinkedIn.PyFloat 0x1.0aaaaaaaaaaaap+5%float)
  /\ PrimFloat.ltb 0x1.0a66666666666p+5 0x1.0aaaaaaaaaaaap+5 = true
  /\ LinkedIn.female_pct Samples.two_to_one <> LinkedIn.female_pct_unrounded Samples.two_to_one.
Proof.
  assert (H1 : LinkedIn.female_pct Samples.two_to_one
               = Some (LinkedIn.PyFloat 0x1.0a66666666666p+5%float)) by (vm_compute; reflexivity).
  assert (H2 : LinkedIn.female_pct_unrounded Samples.two_to_one
               = Some (LinkedIn.PyFloat 0x1.0aaaaaaaaaaaap+5%float)) by (vm_compute; reflexivity).
  assert (H3 : PrimFloat.ltb 0x1.0a66666666666p+5 0x1.0aaaaaaaaaaaap+5 = true)
    by (vm_compute; reflexivity).
  repeat split; try assumption.
  rewrite H1, H2. intros H.
  apply (f_equal (fun o => match o with
                           | Some (LinkedIn.PyFloat f) => PrimFloat.ltb f 0x1.0aaaaaaaaaaaap+5
                           | _ => false
                           end)) in H.
  vm_compute in H. discriminate.
Qed.

(** C8 (amended) — Division-safe percentage. For every bucket, total is
    male + female + unknown; [female_pct] never raises; it is the integer 0
    when male + female is 0 (or negative), and otherwise it is
    female / (male + female) * 100 rounded to one decimal place. *)
Theorem C8_female_pct :
  (forall c, LinkedIn.total c = (LinkedIn.male c + LinkedIn.female c + LinkedIn.unknown c)%Z)
  /\ (forall c, exists v, LinkedIn.female_pct c = Some v)
  /\ (forall c,
      (LinkedIn.male c + LinkedIn.female c = 0)%Z ->
      LinkedIn.female_pct c = Some (LinkedIn.PyInt 0))
  /\ (forall c,
      (LinkedIn.male c + LinkedIn.female c <= 0)%Z ->
      LinkedIn.female_pct c = Some (LinkedIn.PyInt 0))
  /\ (forall c,
      (0 < LinkedIn.male c + LinkedIn.female c)%Z ->
      LinkedIn.female_pct c =
      Some (LinkedIn.PyFloat
              (LinkedIn.round1
                 (PrimFloat.mul
                    (PrimFloat.div (LinkedIn.float_of_int (LinkedIn.female c))
                                   (LinkedIn.float_of_int (LinkedIn.male c + LinkedIn.female c)))
                    (LinkedIn.float_of_int 100))))).
Proof.
  assert (Hneg : forall c, (LinkedIn.male c + LinkedIn.female c <= 0)%Z ->
                           LinkedIn.female_pct c = Some (LinkedIn.PyInt 0)).
  { intros c H. unfold LinkedIn.female_pct.
    destruct (Z.ltb_spec 0 (LinkedIn.male c + LinkedIn.female c)); [lia | reflexivity]. }
  assert (Hpos : forall c, (0 < LinkedIn.male c + LinkedIn.female c)%Z ->
      LinkedIn.female_pct c =
      Some (LinkedIn.PyFloat
              (LinkedIn.round1
                 (PrimFloat.mul
                    (PrimFloat.div (LinkedIn.float_of_int (LinkedIn.female c))
                                   (LinkedIn.float_of_int (LinkedIn.male c + LinkedIn.female c)))
                    (LinkedIn.float_of_int 100))))).
  { intros c H. unfold LinkedIn.female_pct, LinkedIn.truediv.
    destruct (Z.ltb_spec 0 (LinkedIn.male c + LinkedIn.female c)); [|lia].
    destruct (Z.eqb_spec (LinkedIn.male c + LinkedIn.female c) 0); [lia | reflexivity]. }
  split; [|split; [|split; [|split]]].
  - intros c. reflexivity.
  - intros c. destruct (Z_lt_le_dec 0 (LinkedIn.male c + LinkedIn.female c)) as [H | H].
    + eexists. apply Hpos. exact H.
    + eexists. apply Hneg. exact H.
  - intros c H. apply Hneg. lia.
  - exact Hneg.
  - exact Hpos.
Qed.

Lemma C8_witness :
  LinkedIn.female_pct {| LinkedIn.male := 0; LinkedIn.female := 0; LinkedIn.unknown := 5 |}
  = Some (LinkedIn.PyInt 0)
  /\ LinkedIn.female_pct Samples.two_to_one = Some (LinkedIn.PyFloat 0x1.0a66666666666p+5%float).
Proof.
  destruct C8_female_pct as (_ & _ & Hzero & _ & Hpos). split.
  - apply Hzero. reflexivity.
  - rewrite (Hpos Samples.two_to_one ltac:(reflexivity)). vm_compute. reflexivity.
Defined.

(* ===================================================================== *)
(** * Further properties of the tier classifiers *)
(* ===================================================================== *)

Section MoreTierFacts.
Import PyStr.





(** The grade lists of the default table share no code. *)
Lemma default_grades_disjoint t t' g :
  1 <= t <= 6 -> 1 <= t' <= 6 ->
  In g (DataAdapter.tier_list DataAdapter.DEFAULT_TIER_KEYWORDS t "grades") ->
  In g (DataAdapter.tier_list DataAdapter.DEFAULT_TIER_KEYWORDS t' "grades") ->
  t = t'.
Proof.
  intros Ht Ht' H H'.
  assert (Hc : t = 1 \/ t = 2 \/ t = 3 \/ t = 4 \/ t = 5 \/ t = 6) by lia.
  assert (Hc' : t' = 1 \/ t' = 2 \/ t' = 3 \/ t' = 4 \/ t' = 5 \/ t' = 6) by lia.
  destruct Hc as [-> | [-> | [-> | [-> | [-> | ->]]]]];
    destruct Hc' as [-> | [-> | [-> | [-> | [-> | ->]]]]]; try reflexivity; exfalso;
    vm_compute in H;
    repeat (destruct H as [<- | H]; [vm_compute in H'; intuition discriminate|]);
    exact H.
Qed.

End MoreTierFacts.

(** X1 — Both tier classifiers return 0 or a tier number: for every rule
    table, title and grade the result of [classify_tier] is at most 6, and
    so is the result of [classify_title] for every title. *)
Theorem X1_tier_in_range :
  (forall tm title grade, DataAdapter.classify_tier tm title grade <= 6)
  /\ (forall title, LinkedIn.classify_title title <= 6).
Proof. split; [exact classify_tier_range | exact classify_title_range]. Qed.


(** X3 — The most senior tier wins, grade codes included: whenever the
    keyword check or the grade check of a tier t in 1..6 succeeds,
    [classify_tier] returns a tier between 1 and t; and whenever a keyword
    of tier t occurs in the padded title, [classify_title] returns a tier
    between 1 and t. *)
Theorem X3_most_senior_wins :
  (forall tm title grade t,
      1 <= t <= 6 ->
      DataAdapter.keyword_match tm t title \/ DataAdapter.grade_match tm t grade ->
      1 <= DataAdapter.classify_tier tm title grade <= t)
  /\ (forall title t,
      1 <= t <= 6 ->
      LinkedIn.keyword_match t title ->
      1 <= LinkedIn.classify_title title <= t).
Proof.
  split.
  - intros tm title grade t Ht Hm.
    pose proof (classify_tier_range tm title grade) as Hr.
    destruct (Nat.eq_dec (DataAdapter.classify_tier tm title grade) 0) as [E | E].
    + exfalso. pose proof (proj1 (classify_tier_zero tm title grade) E t Ht) as [Hk Hg]. tauto.
    + assert (Hin : 1 <= DataAdapter.classify_tier tm title grade <= 6) by lia.
      destruct (proj1 (classify_tier_first tm title grade _ Hin) eq_refl) as [_ Hlt].
      destruct (le_lt_dec (DataAdapter.classify_tier tm title grade) t) as [Hle | Hgt]; [lia|].
      exfalso. destruct (Hlt t ltac:(lia)) as [Hk Hg]. tauto.
  - intros title t Ht Hm.
    pose proof (classify_title_range title) as Hr.
    destruct (Nat.eq_dec (LinkedIn.classify_title title) 0) as [E | E].
    + exfalso. exact (proj1 (classify_title_zero title) E t Ht Hm).
    + assert (Hin : 1 <= LinkedIn.classify_title title <= 6) by lia.
      destruct (proj1 (classify_title_first title _ Hin) eq_refl) as [_ Hlt].
      destruct (le_lt_dec (LinkedIn.classify_title title) t) as [Hle | Hgt]; [lia|].
      exfalso. exact (Hlt t ltac:(lia) Hm).
Qed.

Lemma X3_witness :
  1 <= DataAdapter.classify_tier DataAdapter.DEFAULT_TIER_KEYWORDS "Trainee" "e2" <= 6
  /\ 1 <= LinkedIn.classify_title "Senior Engineer" <= 6.
Proof.
  destruct X3_most_senior_wins as [Htier Htitle]. split.
  - apply (Htier _ "Trainee" "e2" 6); [lia|].
    left. apply keyword_match_bool. vm_compute. reflexivity.
  - apply (Htitle "Senior Engineer" 6); [lia|].
    apply title_hit_true. vm_compute. reflexivity.
Defined.

(** X4 — Classification by grade alone. Under the default rule table the
    grade codes of the six tiers are pairwise distinct, so for a title in
    which no keyword of any tier occurs (the empty title among them)
    [classify_tier] returns tier t exactly when the upper-cased grade is
    one of the grade codes of tier t, and 0 when it is a code of no tier. *)
Theorem X4_grade_only :
  (forall title grade t,
      1 <= t <= 6 ->
      (forall t', 1 <= t' <= 6 ->
                  ~ DataAdapter.keyword_match DataAdapter.DEFAULT_TIER_KEYWORDS t' title) ->
      (DataAdapter.classify_tier DataAdapter.DEFAULT_TIER_KEYWORDS title grade = t <->
       DataAdapter.grade_match DataAdapter.DEFAULT_TIER_KEYWORDS t grade))
  /\ (forall title grade,
      (forall t', 1 <= t' <= 6 ->
                  ~ DataAdapter.keyword_match DataAdapter.DEFAULT_TIER_KEYWORDS t' title) ->
      (DataAdapter.classify_tier DataAdapter.DEFAULT_TIER_KEYWORDS title grade = 0 <->
       forall t', 1 <= t' <= 6 ->
                  ~ DataAdapter.grade_match DataAdapter.DEFAULT_TIER_KEYWORDS t' grade))
  /\ (forall t', 1 <= t' <= 6 ->
                 ~ DataAdapter.keyword_match DataAdapter.DEFAULT_TIER_KEYWORDS t' "").
Proof.
  split; [|split].
  - intros title grade t Ht Hno. rewrite classify_tier_first by exact Ht. split.
    + intros [[Hk | Hg] _]; [exfalso; exact (Hno t Ht Hk) | exact Hg].
    + intros Hg. split; [right; exact Hg|].
      intros t' Ht'. split; [apply Hno; lia|].
      intros Hg'. unfold DataAdapter.grade_match in *.
      pose proof (default_grades_disjoint t t' _ Ht ltac:(lia) Hg Hg'). lia.
  - intros title grade Hno. rewrite classify_tier_zero. split.
    + intros H t' Ht'. exact (proj2 (H t' Ht')).
    + intros H t' Ht'. split; [apply Hno; exact Ht' | apply H; exact Ht'].
  - intros t' Ht' H. apply keyword_match_bool in H.
    assert (Hc : t' = 1 \/ t' = 2 \/ t' = 3 \/ t' = 4 \/ t' = 5 \/ t' = 6) by lia.
    destruct Hc as [-> | [-> | [-> | [-> | [-> | ->]]]]]; vm_compute in H; discriminate.
Qed.

Lemma X4_witness :
  DataAdapter.classify_tier DataAdapter.DEFAULT_TIER_KEYWORDS "" "m3" = 4
  /\ DataAdapter.classify_tier DataAdapter.DEFAULT_TIER_KEYWORDS "" "Z9" = 0.
Proof.
  destruct X4_grade_only as (Hgrade & Hzero & Hempty). split.
  - apply (Hgrade "" "m3" 4); [lia | exact Hempty |].
    apply grade_match_bool. vm_compute. reflexivity.
  - apply (Hzero "" "Z9"); [exact Hempty|].
    intros t' Ht' H. apply grade_match_bool in H.
    assert (Hc : t' = 1 \/ t' = 2 \/ t' = 3 \/ t' = 4 \/ t' = 5 \/ t' = 6) by lia.
    destruct Hc as [-> | [-> | [-> | [-> | [-> | ->]]]]]; vm_compute in H; discriminate.
Defined.

(* ===================================================================== *)
(** * Further properties of the gender classifiers *)
(* ===================================================================== *)

Section MoreGenderFacts.
Import PyStr PyStrMore.



Lemma lstrip_all_space (d : string) : all_space d = true -> lstrip d = "".
Proof.
  induction d as [|c d IH]; simpl; [reflexivity|].
  intros H. apply andb_true_iff in H as [-> H]. exact (IH H).
Qed.

Lemma rstrip_all_space (d : string) : all_space d = true -> rstrip d = "".
Proof.
  induction d as [|c d IH]; simpl; [reflexivity|].
  intros H. apply andb_true_iff in H as [-> H]. rewrite (IH H). reflexivity.
Qed.

Lemma lstrip_app_space (a s : string) : all_space a = true -> lstrip (a +:+ s) = lstrip s.
Proof.
  induction a as [|c a IH]; [reflexivity|]. rewrite app_cons. simpl.
  intros H. apply andb_true_iff in H as [-> H]. exact (IH H).
Qed.

Lemma rstrip_app_space (s d : string) : all_space d = true -> rstrip (s +:+ d) = rstrip s.
Proof.
  intros H. induction s as [|c s IH].
  - rewrite app_empty_l. apply rstrip_all_space. exact H.
  - rewrite app_cons. simpl. rewrite IH. reflexivity.
Qed.

Lemma lstrip_app (s d : string) :
  lstrip (s +:+ d) = if is_empty (lstrip s) then lstrip d else lstrip s +:+ d.
Proof.
  induction s as [|c s IH]; [reflexivity|]. rewrite app_cons. simpl.
  destruct (is_space c); [exact IH | reflexivity].
Qed.

(** White space around a string does not change what [strip] returns. *)
Lemma strip_padding (a s d : string) :
  all_space a = true -> all_space d = true -> strip (a +:+ s +:+ d) = strip s.
Proof.
  intros Ha Hd. unfold strip. rewrite lstrip_app_space by exact Ha. rewrite lstrip_app.
  destruct (is_empty (lstrip s)) eqn:E.
  - apply is_empty_true in E. rewrite E, (lstrip_all_space d Hd). reflexivity.
  - apply rstrip_app_space. exact Hd.
Qed.


Lemma rstrip_rstrip (s : string) : rstrip (rstrip s) = rstrip s.
Proof.
  induction s as [|c s IH]; [reflexivity|]. simpl.
  destruct (is_empty (rstrip s)) eqn:E; simpl.
  - destruct (is_space c) eqn:Ec; [reflexivity|]. simpl.
    apply is_empty_true in E. rewrite E. simpl. rewrite Ec. reflexivity.
  - simpl. rewrite IH, E. reflexivity.
Qed.

Lemma strip_strip (s : string) : strip (strip s) = strip s.
Proof.
  destruct (strip_head s) as [E | [c [r [E Hc]]]].
  - rewrite E. reflexivity.
  - unfold strip at 1. rewrite E. cbn [lstrip]. rewrite Hc, <- E.
    unfold strip. apply rstrip_rstrip.
Qed.

(** Every gender the lexicon holds is "M" or "F". *)
Lemma lexicon_values name g :
  LinkedIn.INDIAN_NAMES_GENDER !! name = Some g -> g = "M" \/ g = "F".
Proof.
  intros E. unfold LinkedIn.INDIAN_NAMES_GENDER in E.
  apply elem_of_list_to_map_2, list_elem_of_In in E.
  match type of E with In _ ?l => set (l0 := l) in * end.
  assert (Hb : forallb (fun kg : string * string =>
                          String.eqb (snd kg) "M" || String.eqb (snd kg) "F") l0 = true)
    by (vm_compute; reflexivity).
  clearbody l0. rewrite forallb_forall in Hb. specialize (Hb _ E). cbn [snd] in Hb.
  apply orb_true_iff in Hb as [Hb | Hb]; apply String.eqb_eq in Hb; auto.
Qed.

Lemma estimate_gender_values first_name :
  LinkedIn.estimate_gender first_name = "M" \/
  LinkedIn.estimate_gender first_name = "F" \/
  LinkedIn.estimate_gender first_name = "U".
Proof.
  rewrite estimate_gender_unfold. cbv zeta.
  destruct (LinkedIn.INDIAN_NAMES_GENDER !! strip (lower first_name)) as [g|] eqn:E.
  - destruct (lexicon_values _ _ E) as [-> | ->]; auto.
  - destruct (existsb _ LinkedIn.female_endings); [auto|].
    destruct (existsb _ LinkedIn.male_endings); auto.
Qed.

End MoreGenderFacts.

(** X5 — [estimate_gender] returns exactly one of "M", "F" and "U" for
    every first name: every gender stored in the lexicon is "M" or "F",
    and the suffix rules return "F", "M" or "U". *)
Theorem X5_estimate_values :
  forall first_name,
    LinkedIn.estimate_gender first_name = "M" \/
    LinkedIn.estimate_gender first_name = "F" \/
    LinkedIn.estimate_gender first_name = "U".
Proof. exact estimate_gender_values. Qed.



(** X7 — Under the default configuration [CSVAdapter._map_gender] agrees
    with [DataAdapter.normalize_gender] wherever it recognises a gender:
    a value it maps to "M" (or "F") is mapped to "M" (or "F") by
    [normalize_gender] too. The converse fails: "he" is "M" for
    [normalize_gender] and "O" for [_map_gender]. *)
Theorem X7_map_gender_within_normalize :
  (forall fm rows value,
      DataAdapter._map_gender (DataAdapter.default_adapter fm rows) value = "M" ->
      DataAdapter.normalize_gender value = "M")
  /\ (forall fm rows value,
      DataAdapter._map_gender (DataAdapter.default_adapter fm rows) value = "F" ->
      DataAdapter.normalize_gender value = "F")
  /\ DataAdapter.normalize_gender "he" = "M"
  /\ (forall fm rows, DataAdapter._map_gender (DataAdapter.default_adapter fm rows) "he" = "O").
Proof.
  assert (Hmale : forall fm rows,
             default [] (DataAdapter.gender_values (DataAdapter.default_adapter fm rows) !! "male")
             = ["M"; "Male"; "MALE"; "1"; "Man"]) by (intros; vm_compute; reflexivity).
  assert (Hfemale : forall fm rows,
             default [] (DataAdapter.gender_values (DataAdapter.default_adapter fm rows) !! "female")
             = ["F"; "Female"; "FEMALE"; "2"; "Woman"]) by (intros; vm_compute; reflexivity).
  split; [|split; [|split]].
  - intros fm rows value H.
    destruct (map_gender_cases (DataAdapter.default_adapter fm rows) value)
      as [[Hm _] | [(_ & _ & E) | (_ & _ & E)]]; try congruence.
    rewrite normalize_gender_unfold. cbv zeta. rewrite Hmale in Hm. cbn [In] in Hm.
    repeat (destruct Hm as [<- | Hm]; [vm_compute; reflexivity|]). destruct Hm.
  - intros fm rows value H.
    destruct (map_gender_cases (DataAdapter.default_adapter fm rows) value)
      as [[_ E] | [(_ & Hf & _) | (_ & _ & E)]]; try congruence.
    rewrite normalize_gender_unfold. cbv zeta. rewrite Hfemale in Hf. cbn [In] in Hf.
    repeat (destruct Hf as [<- | Hf]; [vm_compute; reflexivity|]). destruct Hf.
  - reflexivity.
  - intros fm rows. vm_compute. reflexivity.
Qed.

Lemma X7_witness : DataAdapter.normalize_gender " Woman " = "F".
Proof.
  apply (proj1 (proj2 X7_map_gender_within_normalize) ∅ None " Woman ").
  vm_compute. reflexivity.
Defined.

(* ===================================================================== *)
(** * Further properties of [fetch_employees] *)
(* ===================================================================== *)

(** X8 — Every record [fetch_employees] returns is well formed: its gender
    is "M", "F" or "O" and its tenure band is never set; it is active when
    no status column is mapped, and its department is set exactly when a
    department column is mapped. With the default active values, a row that
    lacks the mapped status column gives an inactive record. *)
Theorem X8_record_fields :
  (forall self e,
      In e (DataAdapter.fetch_employees self) ->
      (DataAdapter.gender e = "M" \/ DataAdapter.gender e = "F" \/ DataAdapter.gender e = "O")
      /\ DataAdapter.tenure_band e = None
      /\ (DataAdapter.col_mapped (DataAdapter.field_mapping self !! "status") = false ->
          DataAdapter.is_active e = true)
      /\ (DataAdapter.col_mapped (DataAdapter.field_mapping self !! "department") = false <->
          DataAdapter.department_type e = None))
  /\ (forall fm rows row c,
      fm !! "status" = Some c -> c <> "" -> row !! c = None ->
      DataAdapter.is_active
        (DataAdapter.row_employee (DataAdapter.default_adapter fm rows) row) = false).
Proof.
  split.
  - intros self e. unfold DataAdapter.fetch_employees.
    destruct (DataAdapter.df self) as [rows|]; [|intros []].
    rewrite fetch_rows_filter. intros H. apply in_map_iff in H as [row [<- _]].
    unfold DataAdapter.row_employee.
    cbn [DataAdapter.gender DataAdapter.tenure_band DataAdapter.is_active
         DataAdapter.department_type].
    split; [|split; [reflexivity|split]].
    + destruct (map_gender_cases self
                  (DataAdapter.field row (DataAdapter.field_mapping self !! "gender")))
        as [[_ ->] | [(_ & _ & ->) | (_ & _ & ->)]]; auto.
    + intros ->. reflexivity.
    + destruct (DataAdapter.col_mapped (DataAdapter.field_mapping self !! "department"));
        split; congruence.
  - intros fm rows row c Hc Hne Hrow. unfold DataAdapter.row_employee.
    cbn [DataAdapter.is_active DataAdapter.field_mapping DataAdapter.default_adapter
         DataAdapter.active_values].
    rewrite Hc. unfold DataAdapter.row_get. cbn [mbind option_bind]. rewrite Hrow.
    destruct c; [congruence | reflexivity].
Qed.

Lemma X8_witness :
  DataAdapter.is_active
    (DataAdapter.row_employee
       (DataAdapter.default_adapter {[ "title" := "title"; "status" := "state" ]} None)
       {[ "title" := "CEO" ]}) = false.
Proof.
  apply (proj2 X8_record_fields {[ "title" := "title"; "status" := "state" ]} None
           {[ "title" := "CEO" ]} "state"); [reflexivity | discriminate | reflexivity].
Defined.

(** X9 — [fetch_employees] works row by row: the records of a frame split
    in two are the records of the first part followed by those of the
    second, and there are never more records than rows. *)
Theorem X9_fetch_rows_app :
  (forall self rows1 rows2,
      DataAdapter.fetch_rows self (rows1 ++ rows2)
      = (DataAdapter.fetch_rows self rows1 ++ DataAdapter.fetch_rows self rows2)%list)
  /\ (forall self rows, length (DataAdapter.fetch_rows self rows) <= length rows).
Proof.
  split.
  - intros self rows1 rows2. rewrite !fetch_rows_filter, List.filter_app, map_app. reflexivity.
  - intros self rows. rewrite fetch_rows_filter, length_map. apply List.filter_length_le.
Qed.

(* ===================================================================== *)
(** * Further properties of the aggregate *)
(* ===================================================================== *)

Section MoreAggregateFacts.
Import LinkedIn AggregateOrder.
Local Open Scope Z_scope.

Lemma bump_comm g1 g2 c : bump g1 (bump g2 c) = bump g2 (bump g1 c).
Proof.
  unfold bump.
  destruct (String.eqb g1 "M"), (String.eqb g1 "F"), (String.eqb g2 "M"), (String.eqb g2 "F");
    cbn [male female unknown]; reflexivity.
Qed.

Lemma tally_comm r g1 t1 g2 t2 :
  tally (tally r g1 t1) g2 t2 = tally (tally r g2 t2) g1 t1.
Proof.
  destruct r.
  destruct t1 as [|[|[|[|[|[|[|t1]]]]]]], t2 as [|[|[|[|[|[|[|t2]]]]]]];
    unfold tally; cbn; rewrite ?(bump_comm g1 g2); reflexivity.
Qed.

(** What a card does to the aggregate depends on the card alone. *)
Lemma process_card_cases c :
  (forall r, process_card r c = r) \/ (exists g t, forall r, process_card r c = tally r g t).
Proof.
  unfold process_card, try_card.
  destruct (read_card c) as [[name title]|]; cbn [mbind option_bind]; [|left; reflexivity].
  unfold add_profile.
  destruct (if PyStr.is_empty name then Some "" else PyStr.first_word name) as [fn|];
    cbn [mbind option_bind]; [|left; reflexivity].
  right. exists (estimate_gender fn), (classify_title title). reflexivity.
Qed.

Lemma process_card_comm r c1 c2 :
  process_card (process_card r c1) c2 = process_card (process_card r c2) c1.
Proof.
  destruct (process_card_cases c1) as [H1 | (g1 & t1 & H1)],
           (process_card_cases c2) as [H2 | (g2 & t2 & H2)];
    rewrite ?H1, ?H2, ?H1; try reflexivity.
  apply tally_comm.
Qed.

Lemma process_cards_perm r cards cards' :
  Permutation cards cards' -> process_cards r cards = process_cards r cards'.
Proof.
  intros H. revert r. unfold process_cards.
  induction H as [| c l l' _ IH | c1 c2 l | l1 l2 l3 _ IH1 _ IH2]; intros r.
  - reflexivity.
  - cbn [fold_left]. apply IH.
  - cbn [fold_left]. rewrite process_card_comm. reflexivity.
  - rewrite IH1. apply IH2.
Qed.

Lemma count_le_refl b : count_le b b.
Proof. unfold count_le. lia. Qed.

Lemma count_le_bump g b : count_le b (bump g b).
Proof.
  unfold count_le, bump.
  destruct (String.eqb g "M"); [cbn; lia|]. destruct (String.eqb g "F"); cbn; lia.
Qed.

Lemma grows_refl r : grows r r.
Proof. unfold grows. repeat split; try reflexivity; try lia. Qed.

Lemma grows_trans r1 r2 r3 : grows r1 r2 -> grows r2 r3 -> grows r1 r3.
Proof.
  unfold grows, count_le. intros H1 H2.
  repeat match goal with H : _ /\ _ |- _ => destruct H end.
  repeat split; try congruence; lia.
Qed.

Lemma grows_tally r g t : grows r (tally r g t).
Proof.
  destruct t as [|[|[|[|[|[|[|t]]]]]]]; unfold grows, tally; cbn;
    repeat split; try reflexivity; try lia;
    try apply count_le_refl; try apply count_le_bump; pose proof (count_le_bump g) as Hb;
    unfold count_le in Hb; first [apply Hb | idtac].
Qed.

Lemma grows_process_card r c : grows r (process_card r c).
Proof.
  destruct (process_card_cases c) as [H | (g & t & H)]; rewrite H;
    [apply grows_refl | apply grows_tally].
Qed.

Lemma grows_process_cards cards r : grows r (process_cards r cards).
Proof.
  revert r. induction cards as [|c cards IH]; intros r; [apply grows_refl|].
  unfold process_cards in *. cbn [fold_left].
  eapply grows_trans; [apply grows_process_card | apply IH].
Qed.

End MoreAggregateFacts.

(** X10 — The aggregate does not depend on the order in which the cards
    are met: two batches that hold the same cards in different orders
    leave the same counts in every bucket and the same profile total. *)
Theorem X10_order_independent :
  forall result cards cards',
    Permutation cards cards' ->
    LinkedIn.process_cards result cards = LinkedIn.process_cards result cards'.
Proof. exact process_cards_perm. Qed.

Lemma X10_witness :
  LinkedIn.process_cards Samples.fresh
    [Samples.card_ceo; Samples.card_unknown_role; Samples.card_broken]
  = LinkedIn.process_cards Samples.fresh
      [Samples.card_unknown_role; Samples.card_broken; Samples.card_ceo].
Proof.
  apply X10_order_independent.
  apply perm_trans with [Samples.card_unknown_role; Samples.card_ceo; Samples.card_broken].
  - apply perm_swap.
  - apply perm_skip. apply perm_swap.
Defined.

(** X11 — The card loop only ever adds: after any batch, every counter of
    every bucket and the profile total are at least what they were, and
    the company name, the URL, the collection date and the methodology
    notes are untouched. *)
Theorem X11_counts_only_grow :
  forall result cards,
    AggregateOrder.grows result (LinkedIn.process_cards result cards).
Proof. intros result cards. apply grows_process_cards. Qed.

(** X12 — [classify_title] against the table [TITLE_TO_TIER]: on every key
    of the table but five the function returns the tier the table gives.
    The five are "vice president", "senior vice president" and "executive
    vice president" (the table says 3, the function returns 2, because the
    Tier-2 keyword " president " is met first), "partner" (table 2,
    function 3) and "chief" (table 2, function 0). More generally a title
    in which "president" stands as a word of its own is tier 1 or 2. *)
Theorem X12_title_table :
  (forall kw t,
      TitleTable.TITLE_TO_TIER !! kw = Some t ->
      (forall t', ~ In (kw, t') TitleTable.table_exceptions) ->
      LinkedIn.classify_title kw = t)
  /\ (forall kw t',
      In (kw, t') TitleTable.table_exceptions ->
      LinkedIn.classify_title kw = t' /\
      exists t, TitleTable.TITLE_TO_TIER !! kw = Some t /\ t <> t')
  /\ (forall title,
      PyStr.substring_of " president " (" " +:+ PyStr.lower title +:+ " ") ->
      1 <= LinkedIn.classify_title title <= 2).
Proof.
  split; [|split].
  - intros kw t E Hex. unfold TitleTable.TITLE_TO_TIER in E.
    apply elem_of_list_to_map_2, list_elem_of_In in E.
    match type of E with In _ ?l => set (l0 := l) in * end.
    assert (Hb : forallb (fun kt : string * nat =>
                            PyStr.mem (fst kt) (map fst TitleTable.table_exceptions)
                            || (LinkedIn.classify_title (fst kt) =? snd kt)%nat) l0 = true)
      by (vm_compute; reflexivity).
    clearbody l0. rewrite forallb_forall in Hb. specialize (Hb _ E). cbn [fst snd] in Hb.
    apply orb_true_iff in Hb as [Hb | Hb]; [|apply Nat.eqb_eq; exact Hb].
    exfalso. apply mem_spec, in_map_iff in Hb as [[kw' t'] [Hk Hin]].
    cbn [fst] in Hk. subst kw'. exact (Hex t' Hin).
  - intros kw t' Hin. unfold TitleTable.table_exceptions in Hin. cbn [In] in Hin.
    repeat (destruct Hin as [[= <- <-] | Hin];
            [split; [vm_compute; reflexivity | eexists; split; [vm_compute; reflexivity | lia]]|]).
    destruct Hin.
  - intros title H.
    pose proof (classify_title_range title) as Hr.
    assert (Hm : LinkedIn.keyword_match 2 title).
    { exists " president ". split; [|exact H]. vm_compute. tauto. }
    destruct (Nat.eq_dec (LinkedIn.classify_title title) 0) as [E | E].
    + exfalso. exact (proj1 (classify_title_zero title) E 2 ltac:(lia) Hm).
    + assert (Hin : 1 <= LinkedIn.classify_title title <= 6) by lia.
      destruct (proj1 (classify_title_first title _ Hin) eq_refl) as [_ Hlt].
      destruct (le_lt_dec (LinkedIn.classify_title title) 2) as [Hle | Hgt]; [lia|].
      exfalso. exact (Hlt 2 ltac:(lia) Hm).
Qed.

Lemma X12_witness :
  LinkedIn.classify_title "managing director" = 2
  /\ LinkedIn.classify_title "partner" = 3
  /\ 1 <= LinkedIn.classify_title "Vice President" <= 2.
Proof.
  destruct X12_title_table as (Hagree & Hexc & Hpres). split; [|split].
  - apply (Hagree "managing director" 2); [vm_compute; reflexivity|].
    intros t' H. vm_compute in H. intuition discriminate.
  - apply (Hexc "partner" 3). vm_compute. tauto.
  - apply (Hpres "Vice President"). apply contains_spec. vm_compute. reflexivity.
Defined.

(* ===================================================================== *)
(** * [auto_detect_columns] and the demo's tier counts *)
(* ===================================================================== *)

Section WizardFacts.
Import Wizard.

Lemma suggest_lookup patterns field col col_lower (m : gmap string string) key :
  suggest patterns field col col_lower m !! key =
  if PyStr.any_in patterns col_lower && bool_decide (field = key) then Some col else m !! key.
Proof.
  unfold suggest. destruct (PyStr.any_in patterns col_lower); cbn [andb]; [|reflexivity].
  rewrite lookup_insert. destruct (decide (field = key)) as [E | E].
  - rewrite bool_decide_eq_true_2 by exact E. reflexivity.
  - rewrite bool_decide_eq_false_2 by exact E. reflexivity.
Qed.

Lemma detect_step_field m col field patterns :
  In (field, patterns) field_patterns ->
  detect_step m col !! field = if detects patterns col then Some col else m !! field.
Proof.
  intros Hin. unfold detect_step, detects. cbv zeta. rewrite !suggest_lookup.
  unfold field_patterns in Hin. cbn [In] in Hin.
  repeat (destruct Hin as [[= <- <-] | Hin];
          [repeat match goal with
                  | |- context [bool_decide (?a = ?b)] =>
                      first [ rewrite (bool_decide_eq_true_2 (a = b)) by reflexivity
                            | rewrite (bool_decide_eq_false_2 (a = b)) by discriminate ]
                  end;
           rewrite ?andb_false_r, ?andb_true_r; reflexivity|]).
  destruct Hin.
Qed.

Lemma detect_step_other m col key :
  (forall patterns, ~ In (key, patterns) field_patterns) ->
  detect_step m col !! key = m !! key.
Proof.
  intros Hno. unfold detect_step. cbv zeta. rewrite !suggest_lookup.
  assert (Hk : forall f ps, In (f, ps) field_patterns -> bool_decide (f = key) = false).
  { intros f ps Hin. apply bool_decide_eq_false_2. intros ->. exact (Hno ps Hin). }
  rewrite (Hk "gender" gender_patterns), (Hk "title" title_patterns),
    (Hk "grade" grade_patterns), (Hk "status" status_patterns),
    (Hk "department" dept_patterns), !andb_false_r by (vm_compute; tauto).
  reflexivity.
Qed.

Lemma detect_fold_field columns m field patterns :
  In (field, patterns) field_patterns ->
  fold_left detect_step columns m !! field =
  match last (List.filter (detects patterns) columns) with
  | Some col => Some col
  | None => m !! field
  end.
Proof.
  intros Hin. revert m. induction columns as [|col columns IH]; intros m; [reflexivity|].
  cbn [fold_left List.filter]. rewrite IH, (detect_step_field _ _ _ _ Hin).
  destruct (detects patterns col); [|reflexivity].
  rewrite last_cons. destruct (last (List.filter (detects patterns) columns)); reflexivity.
Qed.

Lemma detect_fold_other columns m key :
  (forall patterns, ~ In (key, patterns) field_patterns) ->
  fold_left detect_step columns m !! key = m !! key.
Proof.
  intros Hno. revert m. induction columns as [|col columns IH]; intros m; [reflexivity|].
  cbn [fold_left]. rewrite IH. apply detect_step_other. exact Hno.
Qed.

Lemma count_step_lookup (m : gmap (nat * string) nat) e t g :
  count_of (count_step m e) t g =
  (if (DataAdapter.tier e =? t)%nat && String.eqb (DataAdapter.gender e) g then 1 else 0)
  + count_of m t g.
Proof.
  unfold count_of, count_step. cbv zeta. rewrite lookup_insert.
  destruct (decide ((DataAdapter.tier e, DataAdapter.gender e) = (t, g))) as [E | E].
  - injection E as -> ->. rewrite Nat.eqb_refl, String.eqb_refl. cbn. lia.
  - destruct (Nat.eqb_spec (DataAdapter.tier e) t) as [Et | Et]; [|reflexivity].
    destruct (String.eqb_spec (DataAdapter.gender e) g) as [Eg | Eg]; [|reflexivity].
    congruence.
Qed.

Lemma head_count_cons e l t g :
  head_count (e :: l) t g =
  (if (DataAdapter.tier e =? t)%nat && String.eqb (DataAdapter.gender e) g then 1 else 0)
  + head_count l t g.
Proof.
  unfold head_count. cbn [List.filter].
  destruct ((DataAdapter.tier e =? t)%nat && String.eqb (DataAdapter.gender e) g); reflexivity.
Qed.

Lemma count_fold employees m t g :
  count_of (fold_left count_step employees m) t g = count_of m t g + head_count employees t g.
Proof.
  revert m. induction employees as [|e l IH]; intros m.
  - unfold head_count. cbn. lia.
  - cbn [fold_left]. rewrite IH, count_step_lookup, head_count_cons. lia.
Qed.

Lemma tier_counts_head_count employees t g :
  count_of (tier_counts employees) t g = head_count employees t g.
Proof. unfold tier_counts. rewrite count_fold. reflexivity. Qed.

(** Over records with a tier in 1..6, the twelve printed counts add up to
    the records whose gender is "M" or "F". *)
Lemma printed_head_counts l :
  Forall (fun e => 1 <= DataAdapter.tier e <= 6) l ->
  list_sum (map (fun t => head_count l t "M" + head_count l t "F") (seq 1 6))
  = length (List.filter (fun e => String.eqb (DataAdapter.gender e) "M"
                                  || String.eqb (DataAdapter.gender e) "F") l).
Proof.
  induction 1 as [|e l He _ IH]; [reflexivity|].
  cbn [seq map list_sum List.filter] in *. rewrite !head_count_cons.
  assert (Hc : DataAdapter.tier e = 1 \/ DataAdapter.tier e = 2 \/ DataAdapter.tier e = 3 \/
               DataAdapter.tier e = 4 \/ DataAdapter.tier e = 5 \/ DataAdapter.tier e = 6) by lia.
  destruct (String.eqb_spec (DataAdapter.gender e) "M") as [EM | EM].
  - assert (EF : String.eqb (DataAdapter.gender e) "F" = false) by (rewrite EM; reflexivity).
    rewrite EF. cbn [orb length].
    unfold list_sum in *. cbn [fold_right] in *.
    destruct Hc as [-> | [-> | [-> | [-> | [-> | ->]]]]]; cbn [Nat.eqb andb]; lia.
  - unfold list_sum in *. cbn [fold_right] in *.
    destruct (String.eqb (DataAdapter.gender e) "F"); cbn [orb length];
      destruct Hc as [-> | [-> | [-> | [-> | [-> | ->]]]]]; cbn [Nat.eqb andb]; lia.
Qed.

End WizardFacts.

(** X13 — [auto_detect_columns] suggests, for each of the five fields, the
    last column (in file order) whose lower-cased name contains one of the
    field's patterns, under its original spelling, and suggests nothing
    for a field no column matches; the result has no other key. *)
Theorem X13_auto_detect_last_match :
  (forall columns field patterns,
      In (field, patterns) Wizard.field_patterns ->
      Wizard.auto_detect_columns columns !! field
      = last (List.filter (Wizard.detects patterns) columns))
  /\ (forall columns key,
      (forall patterns, ~ In (key, patterns) Wizard.field_patterns) ->
      Wizard.auto_detect_columns columns !! key = None)
  /\ (forall columns key col,
      Wizard.auto_detect_columns columns !! key = Some col -> In col columns).
Proof.
  assert (H1 : forall columns field patterns,
             In (field, patterns) Wizard.field_patterns ->
             Wizard.auto_detect_columns columns !! field
             = last (List.filter (Wizard.detects patterns) columns)).
  { intros columns field patterns Hin. unfold Wizard.auto_detect_columns.
    rewrite (detect_fold_field _ _ _ _ Hin), lookup_empty.
    destruct (last _); reflexivity. }
  assert (H2 : forall columns key,
             (forall patterns, ~ In (key, patterns) Wizard.field_patterns) ->
             Wizard.auto_detect_columns columns !! key = None).
  { intros columns key Hno. unfold Wizard.auto_detect_columns.
    rewrite detect_fold_other by exact Hno. apply lookup_empty. }
  split; [exact H1 | split; [exact H2|]].
  intros columns key col E.
  destruct (existsb (fun fp => String.eqb (fst fp) key) Wizard.field_patterns) eqn:Ex.
  - apply existsb_exists in Ex as [[field patterns] [Hin Hk]].
    cbn [fst] in Hk. apply String.eqb_eq in Hk. subst field.
    rewrite (H1 _ _ _ Hin) in E. apply last_Some in E as [l' E].
    assert (Hcol : In col (List.filter (Wizard.detects patterns) columns)).
    { rewrite E. apply in_or_app. right. left. reflexivity. }
    apply List.filter_In in Hcol as [Hcol _]. exact Hcol.
  - rewrite H2 in E; [discriminate|]. intros patterns Hin.
    assert (Ht : existsb (fun fp => String.eqb (fst fp) key) Wizard.field_patterns = true).
    { apply existsb_exists. exists (key, patterns). split; [exact Hin | apply String.eqb_refl]. }
    congruence.
Qed.

Lemma X13_witness :
  Wizard.auto_detect_columns MoreSamples.demo_columns !! "title" = Some "designation"
  /\ Wizard.auto_detect_columns MoreSamples.demo_columns !! "name" = None
  /\ In "status" MoreSamples.demo_columns.
Proof.
  destruct X13_auto_detect_last_match as (Hlast & Hnone & Hin). split; [|split].
  - rewrite (Hlast _ "title" Wizard.title_patterns); [reflexivity | vm_compute; tauto].
  - apply Hnone. intros patterns H. vm_compute in H. intuition discriminate.
  - apply (Hin MoreSamples.demo_columns "status" "status"). vm_compute. reflexivity.
Defined.

(** X14 — Three patterns of [auto_detect_columns] never decide: a column
    name that contains "job_level" or "joblevel" contains "level", and one
    that contains "emp_status" contains "status", so the grade and status
    patterns detect exactly the columns the lists without those three
    entries detect. *)
Theorem X14_redundant_patterns :
  forall col,
    Wizard.detects Wizard.grade_patterns col = Wizard.detects Wizard.grade_patterns_short col
    /\ Wizard.detects Wizard.status_patterns col
       = Wizard.detects Wizard.status_patterns_short col.
Proof.
  intros col. unfold Wizard.detects, PyStr.any_in.
  unfold Wizard.grade_patterns, Wizard.grade_patterns_short,
    Wizard.status_patterns, Wizard.status_patterns_short. cbn [existsb].
  split.
  - destruct (PyStr.contains "level" (PyStr.lower col)) eqn:E.
    + cbn [orb]. rewrite !orb_true_r. reflexivity.
    + pose proof (contains_app_r "job_" "level" _ E) as H1.
      pose proof (contains_app_r "job" "level" _ E) as H2.
      change ("job_" +:+ "level") with "job_level" in H1.
      change ("job" +:+ "level") with "joblevel" in H2.
      rewrite H1, H2. reflexivity.
  - destruct (PyStr.contains "status" (PyStr.lower col)) eqn:E.
    + reflexivity.
    + pose proof (contains_app_r "emp_" "status" _ E) as H1.
      change ("emp_" +:+ "status") with "emp_status" in H1.
      rewrite H1. reflexivity.
Qed.

(** X18 — The demo's counting loop counts correctly: after the loop,
    [tier_counts.get((tier, g), 0)] is the number of employees of that tier
    and gender. Run on the records of [fetch_employees], the male and
    female counts of the six printed tiers add up to the number of records
    whose gender is "M" or "F": records of gender "O" are left out of the
    printed distribution and nothing else is. *)
Theorem X18_tier_counts :
  (forall employees t g,
      Wizard.count_of (Wizard.tier_counts employees) t g = Wizard.head_count employees t g)
  /\ (forall self,
      Wizard.printed_total (Wizard.tier_counts (DataAdapter.fetch_employees self))
      = length (List.filter
                  (fun e => String.eqb (DataAdapter.gender e) "M"
                            || String.eqb (DataAdapter.gender e) "F")
                  (DataAdapter.fetch_employees self))).
Proof.
  split; [exact tier_counts_head_count|].
  intros self. unfold Wizard.printed_total.
  rewrite <- printed_head_counts.
  - apply f_equal. apply map_ext. intros t. rewrite !tier_counts_head_count. reflexivity.
  - apply List.Forall_forall. intros e He. unfold DataAdapter.fetch_employees in He.
    destruct (DataAdapter.df self) as [rows|]; [|destruct He].
    rewrite fetch_rows_filter in He. apply in_map_iff in He as [row [<- He]].
    apply List.filter_In in He as [_ He]. apply Nat.ltb_lt in He.
    pose proof (row_tier_range self row). cbn [DataAdapter.tier DataAdapter.row_employee]. lia.
Qed.

(* ===================================================================== *)
(** * The lines of the [.env] file *)
(* ===================================================================== *)

Section EnvFacts.
Import PyStr PyStrMore.

Lemma substring_of_trans (p q s : string) :
  substring_of p q -> substring_of q s -> substring_of p s.
Proof.
  intros [a [b ->]] [c [d ->]]. exists (c +:+ a), (b +:+ d).
  rewrite !app_assoc_str. reflexivity.
Qed.

Lemma lstrip_suffix (s : string) : exists a, s = a +:+ lstrip s.
Proof.
  induction s as [|c s [a IH]]; [exists ""; reflexivity|]. simpl.
  destruct (is_space c).
  - exists (String c a). rewrite app_cons, <- IH. reflexivity.
  - exists "". reflexivity.
Qed.

Lemma rstrip_prefix (s : string) : exists d, s = rstrip s +:+ d.
Proof.
  induction s as [|c s [d IH]]; [exists ""; reflexivity|]. simpl.
  destruct (is_empty (rstrip s) && is_space c).
  - exists (String c s). reflexivity.
  - exists d. rewrite app_cons, <- IH. reflexivity.
Qed.

Lemma strip_substring (s : string) : substring_of (strip s) s.
Proof.
  unfold strip. destruct (lstrip_suffix s) as [a Ha], (rstrip_prefix (lstrip s)) as [d Hd].
  exists a, d. rewrite <- Hd. exact Ha.
Qed.

Lemma contains_strip (p s : string) : contains p s = false -> contains p (strip s) = false.
Proof.
  intros H. destruct (contains p (strip s)) eqn:E; [|reflexivity].
  apply contains_spec in E.
  pose proof (proj2 (contains_spec p s) (substring_of_trans _ _ _ E (strip_substring s))).
  congruence.
Qed.



Lemma split_at_char (sep : ascii) (s : string) :
  contains (String sep "") s = true ->
  s = before_char sep s +:+ String sep (after_char sep s)
  /\ contains (String sep "") (before_char sep s) = false.
Proof.
  induction s as [|c s IH]; [discriminate|].
  cbn [contains startswith]. simpl.
  destruct (Ascii.eqb_spec c sep) as [-> | Hne].
  - intros _. split; reflexivity.
  - destruct (Ascii.eqb_spec sep c) as [-> | _]; [congruence|]. cbn [orb].
    intros H. destruct (IH H) as [E Hno]. split.
    + rewrite app_cons, <- E. reflexivity.
    + cbn [contains startswith]. destruct (Ascii.eqb_spec sep c) as [-> | _]; [congruence|].
      exact Hno.
Qed.


Lemma rstrip_cons_nonspace (c : ascii) (r : string) :
  is_space c = false -> rstrip (String c r) = String c (rstrip r).
Proof. intros H. simpl. rewrite H, andb_false_r. reflexivity. Qed.

Lemma env_assignment_strip raw_line :
  Collector.env_assignment (strip raw_line) = Collector.env_assignment raw_line.
Proof. unfold Collector.env_assignment. rewrite strip_strip. reflexivity. Qed.


End EnvFacts.

(** X15 — Which lines of the [.env] file [load_env] ignores: a blank line,
    a line whose first character after the leading white space is "#", and
    a line without "=" assign nothing. White space around a line (the line
    end among it) never changes what the line assigns. *)
Theorem X15_env_ignored_lines :
  (forall line, PyStrMore.all_space line = true -> Collector.env_assignment line = None)
  /\ (forall a rest,
      PyStrMore.all_space a = true ->
      Collector.env_assignment (a +:+ "#" +:+ rest) = None)
  /\ (forall line, PyStr.contains "=" line = false -> Collector.env_assignment line = None)
  /\ (forall a line d,
      PyStrMore.all_space a = true -> PyStrMore.all_space d = true ->
      Collector.env_assignment (a +:+ line +:+ d) = Collector.env_assignment line).
Proof.
  split; [|split; [|split]].
  - intros line H. unfold Collector.env_assignment, PyStr.strip.
    rewrite (lstrip_all_space line H). reflexivity.
  - intros a rest H. unfold Collector.env_assignment, PyStr.strip.
    rewrite lstrip_app_space by exact H.
    change ("#" +:+ rest) with (String "#" rest).
    change (PyStr.lstrip (String "#" rest)) with (String "#" rest).
    rewrite (rstrip_cons_nonspace "#" rest) by reflexivity. reflexivity.
  - intros line H. unfold Collector.env_assignment.
    rewrite (contains_strip _ _ H), andb_false_r. reflexivity.
  - intros a line d Ha Hd. unfold Collector.env_assignment.
    rewrite strip_padding by assumption. reflexivity.
Qed.

Lemma X15_witness :
  Collector.env_assignment "   " = None
  /\ Collector.env_assignment ("  " +:+ "#" +:+ " LINKEDIN_EMAIL=a@b.c") = None
  /\ Collector.env_assignment "LINKEDIN_EMAIL" = None
  /\ Collector.env_assignment (" " +:+ "A=1" +:+ String "010" "") = Collector.env_assignment "A=1".
Proof.
  destruct X15_env_ignored_lines as (Hblank & Hcomment & Hnoeq & Hpad).
  split; [|split; [|split]].
  - apply Hblank. reflexivity.
  - apply Hcomment. reflexivity.
  - apply Hnoeq. reflexivity.
  - apply Hpad; reflexivity.
Defined.



(** X17 — What a line of the [.env] file assigns: the line, stripped, is
    cut at its first "="; the key is the part before it and the value the
    part after it, each stripped. So the key holds no "=", and neither the
    key nor the value has white space at its ends. *)
Theorem X17_env_assignment_shape :
  forall raw_line k v,
    Collector.env_assignment raw_line = Some (k, v) ->
    exists before after,
      PyStr.strip raw_line = before +:+ "=" +:+ after
      /\ PyStr.contains "=" before = false
      /\ k = PyStr.strip before /\ v = PyStr.strip after
      /\ PyStr.strip k = k /\ PyStr.strip v = v
      /\ PyStr.contains "=" k = false.
Proof.
  intros raw_line k v. unfold Collector.env_assignment. cbv zeta.
  destruct (negb (PyStr.is_empty (PyStr.strip raw_line))
            && negb (PyStr.startswith "#" (PyStr.strip raw_line))
            && PyStr.contains "=" (PyStr.strip raw_line)) eqn:E; [|discriminate].
  intros [= <- <-]. apply andb_true_iff in E as [_ E].
  destruct (split_at_char "=" _ E) as [Hs Hno].
  exists (PyStr.before_char "=" (PyStr.strip raw_line)),
         (PyStrMore.after_char "=" (PyStr.strip raw_line)).
  repeat split; try reflexivity.
  - exact Hs.
  - exact Hno.
  - apply strip_strip.
  - apply strip_strip.
  - apply contains_strip. exact Hno.
Qed.

Lemma X17_witness :
  exists before after,
    PyStr.strip " KEY = some value " = before +:+ "=" +:+ after
    /\ PyStr.contains "=" before = false
    /\ "KEY" = PyStr.strip before /\ "some value" = PyStr.strip after
    /\ PyStr.strip "KEY" = "KEY" /\ PyStr.strip "some value" = "some value"
    /\ PyStr.contains "=" "KEY" = false.
Proof. apply (X17_env_assignment_shape " KEY = some value " "KEY" "some value"). reflexivity. Defined.

(* ===================================================================== *)
(** * The card loop of equiverse-data-collector/linkedin_collector.py *)
(* ===================================================================== *)

Section CollectorFacts.
Import PyStr PyStrMore Collector.

Lemma scan_names_stripped name texts :
  strip name = name -> strip (scan_names name texts) = scan_names name texts.
Proof.
  revert name. induction texts as [|[text|] texts IH]; intros name H; cbn [scan_names].
  - exact H.
  - destruct (name_found _); [apply strip_strip | apply IH, strip_strip].
  - apply IH. exact H.
Qed.

(** The name the scan ends with is the name it started with or the first
    line, stripped, of one of the texts. *)
Lemma scan_names_result name texts :
  scan_names name texts = name \/
  exists text, In (Some text) texts /\
               scan_names name texts = strip (before_char "010" text).
Proof.
  revert name. induction texts as [|[text|] texts IH]; intros name; cbn [scan_names].
  - left. reflexivity.
  - destruct (name_found _).
    + right. exists text. split; [left; reflexivity | reflexivity].
    + destruct (IH (strip (before_char "010" text))) as [E | [text' [Hin E]]].
      * right. exists text. split; [left; reflexivity | exact E].
      * right. exists text'. split; [right; exact Hin | exact E].
  - destruct (IH name) as [E | [text' [Hin E]]].
    + left. exact E.
    + right. exists text'. split; [right; exact Hin | exact E].
Qed.

Lemma first_word_head (c : ascii) (r : string) :
  is_space c = false -> first_word (String c r) = Some (String c (until_space r)).
Proof. intros H. unfold first_word. simpl. rewrite H. simpl. rewrite H. reflexivity. Qed.

Lemma gender_sym_defined first_name :
  is_Some (gender_sym !! LinkedIn.estimate_gender first_name).
Proof.
  destruct (estimate_gender_values first_name) as [-> | [-> | ->]];
    vm_compute; eexists; reflexivity.
Qed.

Lemma tier_name_defined title : is_Some (tier_name !! LinkedIn.classify_title title).
Proof.
  pose proof (classify_title_range title) as H.
  destruct (LinkedIn.classify_title title) as [|[|[|[|[|[|[|t]]]]]]]; try lia;
    vm_compute; eexists; reflexivity.
Qed.

(** The three ways the body of the [try] ends. *)
Lemma try_card_cases first c :
  (first = true /\ inner_html c = None /\ try_card first c = None)
  \/ (name_skipped (scan_names "" (name_texts c)) = true /\ try_card first c = Some None)
  \/ (name_skipped (scan_names "" (name_texts c)) = false /\
      exists ch rest tn,
        scan_names "" (name_texts c) = String ch rest
        /\ is_space ch = false
        /\ tier_name !! LinkedIn.classify_title (card_title c) = Some tn
        /\ try_card first c =
           Some (Some {| first_initial := String ch "";
                         entry_gender := LinkedIn.estimate_gender (String ch (until_space rest));
                         entry_tier := LinkedIn.classify_title (card_title c);
                         entry_tier_name := tn;
                         entry_title := card_title c |})).
Proof.
  unfold try_card, card_title.
  destruct first, (inner_html c) as [html|]; cbn [mbind option_bind];
    try (left; repeat split; reflexivity);
    (right;
     destruct (name_skipped (scan_names "" (name_texts c))) eqn:Es; [left; split; reflexivity|];
     right; split; [reflexivity|];
     pose proof (scan_names_stripped "" (name_texts c) eq_refl) as Hs;
     destruct (strip_head (scan_names "" (name_texts c))) as [E0 | [ch [rest [E1 Hch]]]];
     [ rewrite Hs in E0; rewrite E0 in Es; discriminate | ];
     rewrite Hs in E1; rewrite E1 in *;
     destruct (tier_name_defined
                 (if is_empty (scan_titles "" (title_texts c))
                  then fallback_title (String ch rest) c
                  else scan_titles "" (title_texts c))) as [tn Htn];
     destruct (gender_sym_defined (String ch (until_space rest))) as [sym Hsym];
     exists ch, rest, tn; split; [reflexivity|]; split; [exact Hch|]; split; [exact Htn|];
     cbn [is_empty]; rewrite (first_word_head ch rest Hch); cbn [mbind option_bind];
     rewrite Hsym; cbn [mbind option_bind head_char is_empty]; rewrite Htn;
     reflexivity).
Qed.


Lemma process_card_cases2 page idx st c :
  process_card page idx st c = st \/
  exists e, try_card ((idx =? 0)%nat && (page =? 0)%nat) c = Some (Some e) /\
            process_card page idx st c =
            {| result := LinkedIn.tally (result st) (entry_gender e) (entry_tier e);
               raw_entries := (raw_entries st ++ [e])%list;
               page_count := (page_count st + 1)%Z |}.
Proof.
  unfold process_card.
  destruct (try_card ((idx =? 0)%nat && (page =? 0)%nat) c) as [[e|]|];
    [right; exists e; split; reflexivity | left; reflexivity | left; reflexivity].
Qed.

Lemma tally_entries_total r entries :
  LinkedIn.total_profiles_analyzed (tally_entries r entries)
  = (LinkedIn.total_profiles_analyzed r + Z.of_nat (length entries))%Z.
Proof.
  revert r. induction entries as [|e entries IH]; intros r; [cbn; lia|].
  unfold tally_entries in *. cbn [fold_left length]. rewrite IH.
  destruct (tally_totals r (entry_gender e) (entry_tier e)) as [-> _]. lia.
Qed.

Lemma tally_entries_app r l1 l2 :
  tally_entries r (l1 ++ l2) = tally_entries (tally_entries r l1) l2.
Proof. unfold tally_entries. apply fold_left_app. Qed.

Lemma process_from_entries cards page idx st :
  exists new,
    raw_entries (process_from page idx st cards) = (raw_entries st ++ new)%list
    /\ result (process_from page idx st cards) = tally_entries (result st) new
    /\ page_count (process_from page idx st cards)
       = (page_count st + Z.of_nat (length new))%Z
    /\ length new <= length cards.
Proof.
  revert idx st. induction cards as [|c cards IH]; intros idx st; cbn [process_from].
  - exists []. rewrite app_nil_r. cbn. repeat split; lia.
  - destruct (IH (S idx) (process_card page idx st c)) as (new & Hr & Ha & Hp & Hl).
    destruct (process_card_cases2 page idx st c) as [E | [e [_ E]]]; rewrite E in *.
    + exists new. cbn [length]. repeat split; [exact Hr | exact Ha | exact Hp | lia].
    + cbn [raw_entries result page_count] in *. exists (e :: new).
      rewrite Hr, Ha, Hp, <- app_assoc. cbn [length app]. repeat split; try reflexivity; lia.
Qed.

Lemma tally_entries_bucket entries r t b :
  LinkedIn.tier_map r t = Some b ->
  exists b',
    LinkedIn.tier_map (tally_entries r entries) t = Some b'
    /\ LinkedIn.male b' =
       (LinkedIn.male b + Z.of_nat (length (List.filter
          (fun e => (entry_tier e =? t)%nat && String.eqb (entry_gender e) "M") entries)))%Z
    /\ LinkedIn.female b' =
       (LinkedIn.female b + Z.of_nat (length (List.filter
          (fun e => (entry_tier e =? t)%nat && String.eqb (entry_gender e) "F") entries)))%Z
    /\ LinkedIn.unknown b' =
       (LinkedIn.unknown b + Z.of_nat (length (List.filter
          (fun e => (entry_tier e =? t)%nat && negb (String.eqb (entry_gender e) "M")
                    && negb (String.eqb (entry_gender e) "F")) entries)))%Z.
Proof.
  revert r b. induction entries as [|e entries IH]; intros r b Hb.
  - exists b. cbn. repeat split; [exact Hb | lia | lia | lia].
  - unfold tally_entries in *. cbn [fold_left List.filter].
    pose proof (tally_buckets r (entry_gender e) (entry_tier e) t) as Ht.
    destruct (Nat.eqb_spec (entry_tier e) t) as [Et | Et].
    + rewrite Et in Ht |- *. rewrite Hb in Ht. cbn [fmap option_fmap option_map] in Ht.
      destruct (IH _ _ Ht) as (b' & Hb' & Hm & Hf & Hu). exists b'.
      split; [exact Hb'|]. rewrite Hm, Hf, Hu. cbn [andb].
      destruct (bump_shape (entry_gender e) b) as [[Eg ->] | [[Eg ->] | (Eg1 & Eg2 & ->)]].
      * rewrite Eg. cbn [String.eqb Ascii.eqb Bool.eqb andb negb length LinkedIn.male LinkedIn.female LinkedIn.unknown].
        repeat split; lia.
      * rewrite Eg. cbn [String.eqb Ascii.eqb Bool.eqb andb negb length LinkedIn.male LinkedIn.female LinkedIn.unknown].
        repeat split; lia.
      * apply String.eqb_neq in Eg1, Eg2. rewrite Eg1, Eg2.
        cbn [andb negb length LinkedIn.male LinkedIn.female LinkedIn.unknown].
        repeat split; lia.
    + rewrite Hb in Ht. destruct (IH _ _ Ht) as (b' & Hb' & Hm & Hf & Hu). exists b'.
      cbn [andb]. repeat split; assumption.
Qed.

End CollectorFacts.

(** X19 — The body of the card loop raises only where the debug read of
    the first card fails: once [innerHTML] of the first card of the first
    page can be read, no card makes it raise. In particular the lookups
    [gender_sym[gender]] and [tier_name[tier]] never miss and
    [first_name[0]] is never taken of an empty string. *)
Theorem X19_card_body_never_raises :
  forall first c,
    (first = true -> is_Some (Collector.inner_html c)) ->
    is_Some (Collector.try_card first c).
Proof.
  intros first c H.
  destruct (try_card_cases first c)
    as [(Hf & Hn & _) | [[_ E] | [_ (ch & rest & tn & _ & _ & _ & E)]]].
  - destruct (H Hf) as [x Hx]. congruence.
  - rewrite E. eexists. reflexivity.
  - rewrite E. eexists. reflexivity.
Qed.

Lemma X19_witness :
  is_Some (Collector.try_card true MoreSamples.span_card).
Proof. apply X19_card_body_never_raises. intros _. eexists. reflexivity. Defined.

(** X20 — Anonymous and nameless cards are skipped: when every text a name
    selector yields is, once cut at the first line end and stripped, empty,
    shorter than two characters, or contains "linkedin member" in any
    case, the card changes nothing: no raw entry, no count. *)
Theorem X20_member_cards_skipped :
  forall page idx st c,
    (forall text, In (Some text) (Collector.name_texts c) ->
                  Collector.name_skipped (PyStr.strip (PyStr.before_char "010" text)) = true) ->
    Collector.process_card page idx st c = st.
Proof.
  intros page idx st c H.
  assert (Hs : Collector.name_skipped (Collector.scan_names "" (Collector.name_texts c)) = true).
  { destruct (scan_names_result "" (Collector.name_texts c)) as [-> | [text [Hin ->]]];
      [reflexivity | apply H; exact Hin]. }
  unfold Collector.process_card.
  destruct (try_card_cases ((idx =? 0)%nat && (page =? 0)%nat) c)
    as [(_ & _ & E) | [[_ E] | [Hn _]]]; [rewrite E; reflexivity .. | congruence].
Qed.

Lemma X20_witness :
  Collector.process_card 0 0 MoreSamples.start MoreSamples.member_card = MoreSamples.start.
Proof.
  apply X20_member_cards_skipped. intros text H.
  unfold MoreSamples.member_card in H. cbn [Collector.name_texts In] in H.
  destruct H as [[= <-] | [H | [[= <-] | []]]]; [reflexivity | discriminate | reflexivity].
Defined.

(** X21 — What a raw entry holds. The entry appended for a card keeps of
    the name only its first character: [first_initial] is one character
    long and is the first character of the name read from the card, never
    "?" for lack of a name. Its gender is "M", "F" or "U", its tier is
    [classify_title] of its title and lies in 0..6, its tier name is the
    one [tier_name] gives for that tier, and its title is the card's. *)
Theorem X21_raw_entry_shape :
  forall first c e,
    Collector.try_card first c = Some (Some e) ->
    String.length (Collector.first_initial e) = 1
    /\ (exists rest,
          Collector.scan_names "" (Collector.name_texts c)
          = Collector.first_initial e +:+ rest)
    /\ Collector.name_skipped (Collector.scan_names "" (Collector.name_texts c)) = false
    /\ (Collector.entry_gender e = "M" \/ Collector.entry_gender e = "F"
        \/ Collector.entry_gender e = "U")
    /\ Collector.entry_title e = Collector.card_title c
    /\ Collector.entry_tier e = LinkedIn.classify_title (Collector.entry_title e)
    /\ Collector.entry_tier e <= 6
    /\ Collector.tier_name !! Collector.entry_tier e = Some (Collector.entry_tier_name e).
Proof.
  intros first c e H.
  destruct (try_card_cases first c)
    as [(_ & _ & E) | [[_ E] | [Hn (ch & rest & tn & En & _ & Htn & E)]]];
    rewrite E in H; try discriminate.
  injection H as <-.
  cbn [Collector.first_initial Collector.entry_gender Collector.entry_title
       Collector.entry_tier Collector.entry_tier_name].
  split; [reflexivity|]. split; [exists rest; rewrite En; reflexivity|].
  split; [exact Hn|]. split; [apply estimate_gender_values|].
  split; [reflexivity|]. split; [reflexivity|].
  split; [apply classify_title_range | exact Htn].
Qed.

Lemma X21_witness :
  String.length "P" = 1
  /\ (exists rest, Collector.scan_names "" (Collector.name_texts MoreSamples.span_card)
                   = "P" +:+ rest)
  /\ Collector.name_skipped
       (Collector.scan_names "" (Collector.name_texts MoreSamples.span_card)) = false
  /\ ("F" = "M" \/ "F" = "F" \/ "F" = "U")
  /\ "Senior Manager at Acme" = Collector.card_title MoreSamples.span_card
  /\ 4 = LinkedIn.classify_title "Senior Manager at Acme"
  /\ 4 <= 6
  /\ Collector.tier_name !! 4 = Some "Middle".
Proof.
  apply (X21_raw_entry_shape true MoreSamples.span_card
           {| Collector.first_initial := "P"; Collector.entry_gender := "F";
              Collector.entry_tier := 4; Collector.entry_tier_name := "Middle";
              Collector.entry_title := "Senior Manager at Acme" |}).
  vm_compute. reflexivity.
Defined.

(** X22 — The raw entries and the aggregate never drift apart. After the
    card loop has run over any cards, the raw entries are the old ones
    followed by some new ones, at most one per card; the aggregate is the
    old aggregate with exactly the new entries tallied, in order; and the
    page counter and [total_profiles_analyzed] have both grown by the
    number of new entries. *)
Theorem X22_entries_match_aggregate :
  forall page idx st cards,
    exists new,
      Collector.raw_entries (Collector.process_from page idx st cards)
      = (Collector.raw_entries st ++ new)%list
      /\ Collector.result (Collector.process_from page idx st cards)
         = Collector.tally_entries (Collector.result st) new
      /\ Collector.page_count (Collector.process_from page idx st cards)
         = (Collector.page_count st + Z.of_nat (length new))%Z
      /\ LinkedIn.total_profiles_analyzed
           (Collector.result (Collector.process_from page idx st cards))
         = (LinkedIn.total_profiles_analyzed (Collector.result st)
            + Z.of_nat (length new))%Z
      /\ length new <= length cards
      /\ Collector.page_count (Collector.process_page page st cards)
         = Z.of_nat (length (Collector.raw_entries (Collector.process_page page st cards))
                     - length (Collector.raw_entries st)).
Proof.
  intros page idx st cards.
  destruct (process_from_entries cards page idx st) as (new & Hr & Ha & Hp & Hl).
  exists new. repeat split; try assumption.
  - rewrite Ha. apply tally_entries_total.
  - unfold Collector.process_page.
    destruct (process_from_entries cards page 0
                {| Collector.result := Collector.result st;
                   Collector.raw_entries := Collector.raw_entries st;
                   Collector.page_count := 0 |}) as (new' & Hr' & _ & Hp' & _).
    rewrite Hr', Hp'. cbn [Collector.raw_entries Collector.page_count].
    rewrite length_app. f_equal. lia.
Qed.

(** X23 — The buckets can be recounted from the raw entries: after
    tallying a list of entries, the male, female and unknown counters of
    the bucket of tier t have grown by the number of entries of tier t
    whose gender is "M", is "F", and is neither. *)
Theorem X23_buckets_from_entries :
  forall entries r t b,
    LinkedIn.tier_map r t = Some b ->
    exists b',
      LinkedIn.tier_map (Collector.tally_entries r entries) t = Some b'
      /\ LinkedIn.male b' =
         (LinkedIn.male b + Z.of_nat (length (List.filter
            (fun e => (Collector.entry_tier e =? t)%nat
                      && String.eqb (Collector.entry_gender e) "M") entries)))%Z
      /\ LinkedIn.female b' =
         (LinkedIn.female b + Z.of_nat (length (List.filter
            (fun e => (Collector.entry_tier e =? t)%nat
                      && String.eqb (Collector.entry_gender e) "F") entries)))%Z
      /\ LinkedIn.unknown b' =
         (LinkedIn.unknown b + Z.of_nat (length (List.filter
            (fun e => (Collector.entry_tier e =? t)%nat
                      && negb (String.eqb (Collector.entry_gender e) "M")
                      && negb (String.eqb (Collector.entry_gender e) "F")) entries)))%Z.
Proof. exact tally_entries_bucket. Qed.

Lemma X23_witness :
  exists b',
    LinkedIn.tier_map
      (Collector.tally_entries Samples.fresh
         [ {| Collector.first_initial := "P"; Collector.entry_gender := "F";
              Collector.entry_tier := 4; Collector.entry_tier_name := "Middle";
              Collector.entry_title := "Senior Manager" |} ]) 4 = Some b'
    /\ LinkedIn.male b' = (0 + Z.of_nat 0)%Z
    /\ LinkedIn.female b' = (0 + Z.of_nat 1)%Z
    /\ LinkedIn.unknown b' = (0 + Z.of_nat 0)%Z.
Proof.
  apply (X23_buckets_from_entries
           [ {| Collector.first_initial := "P"; Collector.entry_gender := "F";
                Collector.entry_tier := 4; Collector.entry_tier_name := "Middle";
                Collector.entry_title := "Senior Manager" |} ]
           Samples.fresh 4 LinkedIn.empty_count).
  reflexivity.
Defined.

Section TitleScanFacts.
Import PyStr Collector.

Lemma scan_titles_stripped title texts :
  strip title = title -> strip (scan_titles title texts) = scan_titles title texts.
Proof.
  revert title. induction texts as [|[text|] texts IH]; intros title H; cbn [scan_titles].
  - exact H.
  - destruct (negb (is_empty (strip text))); [apply strip_strip | apply IH, strip_strip].
  - apply IH. exact H.
Qed.

Lemma scan_spans_result name spans :
  scan_spans name spans = "" \/
  exists text, In (Some text) spans
               /\ scan_spans name spans = strip text
               /\ looks_like_title name (strip text) = true.
Proof.
  induction spans as [|[text|] spans IH]; cbn [scan_spans]; [left; reflexivity | | left; reflexivity].
  destruct (looks_like_title name (strip text)) eqn:E.
  - right. exists text. repeat split; [left; reflexivity | exact E].
  - destruct IH as [IH | [text' (Hin & Hs & Hl)]]; [left; exact IH|].
    right. exists text'. repeat split; [right; exact Hin | exact Hs | exact Hl].
Qed.

End TitleScanFacts.

(** X24 — The title of a card. It never has white space at its ends. When
    no title selector gives a title, the fallback either finds nothing or
    takes the stripped text of a span that is not the name itself, is
    longer than five characters and contains, lower-cased, one of the
    title keywords. *)
Theorem X24_card_title :
  (forall c, PyStr.strip (Collector.card_title c) = Collector.card_title c)
  /\ (forall name c,
      Collector.fallback_title name c = ""
      \/ exists spans text,
           Collector.span_texts c = Some spans
           /\ In (Some text) spans
           /\ Collector.fallback_title name c = PyStr.strip text
           /\ PyStr.strip text <> name
           /\ 5 < String.length (PyStr.strip text)
           /\ exists kw, In kw Collector.title_keywords
                         /\ PyStr.substring_of kw (PyStr.lower (PyStr.strip text))).
Proof.
  assert (Hfb : forall name c,
      Collector.fallback_title name c = ""
      \/ exists spans text,
           Collector.span_texts c = Some spans
           /\ In (Some text) spans
           /\ Collector.fallback_title name c = PyStr.strip text
           /\ PyStr.strip text <> name
           /\ 5 < String.length (PyStr.strip text)
           /\ exists kw, In kw Collector.title_keywords
                         /\ PyStr.substring_of kw (PyStr.lower (PyStr.strip text))).
  { intros name c. unfold Collector.fallback_title.
    destruct (Collector.span_texts c) as [spans|]; [|left; reflexivity].
    destruct (scan_spans_result name spans) as [E | [text (Hin & Hs & Hl)]]; [left; exact E|].
    right. exists spans, text. unfold Collector.looks_like_title in Hl.
    apply andb_true_iff in Hl as [Hl Hkw]. apply andb_true_iff in Hl as [Hl Hlen].
    apply andb_true_iff in Hl as [_ Hne].
    repeat split; try assumption.
    - apply negb_true_iff, String.eqb_neq in Hne. exact Hne.
    - apply Nat.ltb_lt. exact Hlen.
    - apply existsb_exists in Hkw as [kw [Hin' Hc]]. exists kw.
      split; [exact Hin' | apply contains_spec; exact Hc]. }
  split; [|exact Hfb].
  intros c. unfold Collector.card_title. cbv zeta.
  destruct (PyStr.is_empty (Collector.scan_titles "" (Collector.title_texts c))) eqn:E.
  - destruct (Hfb (Collector.scan_names "" (Collector.name_texts c)) c)
      as [-> | (spans & text & _ & _ & -> & _)]; [reflexivity | apply strip_strip].
  - apply scan_titles_stripped. reflexivity.
Qed.
